(** * ci-search: the result-streaming renderers of [cmd/search/http.go]

    A shallow embedding of [renderWithContext], [renderSummary],
    [parseRequest] and the renderer choice of [handleIndex], with the
    properties the specification states about them. *)

From Stdlib Require Import ZArith List String Ascii Bool Lia.
Import ListNotations.

Local Open Scope Z_scope.

(** ** Go values *)

(** Go's [int] on a 64-bit target: arithmetic wraps around. *)
Definition wrap (z : Z) : Z := (z + 2 ^ 63) mod 2 ^ 64 - 2 ^ 63.

Definition int_max : Z := 2 ^ 63 - 1.

(** [len(x)] as a Go [int]. *)
Definition len {A} (l : list A) : Z := Z.of_nat (List.length l).
Definition slen (s : string) : Z := Z.of_nat (String.length s).

(** A call either returns or stops with a run-time panic. *)
Inductive outcome (A : Type) : Type :=
| Done (a : A)
| Panicked (msg : string).
Arguments Done {A} a.
Arguments Panicked {A} msg.

Definition bind {A B} (m : outcome A) (k : A -> outcome B) : outcome B :=
  match m with
  | Done a => k a
  | Panicked msg => Panicked msg
  end.

Notation "x <- m ;; k" := (bind m (fun x => k))
  (at level 61, m at next level, right associativity).

Definition nil_dereference : string := "invalid memory address or nil pointer dereference".

(** ** Data model *)

(** The arguments of one call of the callback handed to [executeGrep]:
    [func(name string, search string, matches []bytes.Buffer, moreLines int)]. *)
Record MatchEvent := mkEvent {
  name : string;
  search : string;
  matches : list string;
  moreLines : Z
}.

(** Modelled from the spec: the [Result] struct is declared outside
    [http.go].  Its fields are the ones [http.go] reads.  [JobURI] is
    compared with [nil] in [renderSummary] and has a [String] method: a
    pointer to a URL, here [None] for [nil] and [Some u] with [u] the text
    that [String] returns.  [FailedAt] is a [time.Time], as nanoseconds
    counted from the zero instant, so that [IsZero] is the test against 0. *)
Record Result := mkResult {
  FailedAt : Z;
  JobURI : option string;
  FileType : string;
  Trigger : string;
  Name : string;
  Number : Z
}.

(** The zero value of [Result], which a resolver miss returns. *)
Definition zeroResult : Result := mkResult 0 None "" "" "" 0.

(** The [String] method of a URL pointer reads the fields of its
    receiver: on [nil] it panics. *)
Definition URL_String (u : option string) : outcome string :=
  match u with
  | Some s => Done s
  | None => Panicked nil_dereference
  end.

Definition IsZero (t : Z) : bool := t =? 0.

(** [time.Time.Sub]: the difference as a [Duration] (int64 nanoseconds),
    saturating at the ends of the range. *)
Definition time_Sub (t u : Z) : Z :=
  Z.max (- 2 ^ 63) (Z.min int_max (t - u)).

(** What the renderers hand to the buffered writer [bw], one constructor
    per write in the source; the dynamic text of a write is kept as the
    arguments of its format (all of them pass through
    [template.HTMLEscapeString] or [template.HTMLEscape] on the way out). *)
Inductive Tok : Type :=
| TFlush                            (* bw.Flush() *)
| TSeparator                        (* "\n&mdash;\n\n" *)
| TBlockClose                       (* </pre></div> *)
| TBlockOpen                        (* <div class="mb-4"> *)
| THeader (fileType trigger uri jobName : string) (number : Z) (age : string)
                                    (* <h5 class="mb-3">.. from .. <a href=..>.. #..</a>..</h5><pre class="small"> *)
| TLine (line : string)             (* the escaped line and a newline *)
| TMoreLines (n : Z)                (* "\n... %d lines not shown\n\n" *)
| TTableHead                        (* <table ..><tbody><tr><th>Type</th>..</tr> *)
| TCount (n : Z)                    (* <td>%d</td> *)
| TRowClose                         (* </tr> *)
| TRowOpen                          (* <tr> *)
| TRow (fileType uri jobName : string) (number : Z) (age : string).
                                    (* <td>..</td><td><a href=..>.. #..</a></td><td>..</td> *)

(** ** Trimming the lines of a hit *)

(** [bytes.TrimRight(b, " ")]: drop the trailing spaces. *)
Fixpoint TrimRight (s : string) : string :=
  match s with
  | EmptyString => EmptyString
  | String c s' =>
      match TrimRight s' with
      | EmptyString => if Ascii.eqb c " " then EmptyString else String c EmptyString
      | t => String c t
      end
  end.

(** The first loop over [matches]: every line is right-trimmed and kept
    only when something is left of it. *)
Definition keepLine (lines : list string) (m : string) : list string :=
  let line := TrimRight m in
  if slen line =? 0 then lines else lines ++ [line].

Definition collectLines (ms : list string) : list string :=
  fold_left keepLine ms [].

(** The second loop, [for i := len(lines) - 1; i >= 0; i--]: cut empty
    lines off the end.  The argument [n] is [i + 1]. *)
Fixpoint cutTrailing (n : nat) (lines : list string) : list string :=
  match n with
  | O => lines
  | S i =>
      match nth_error lines i with
      | Some l => if negb (slen l =? 0) then lines else cutTrailing i (firstn i lines)
      | None => lines
      end
  end.

Definition hitLines (ms : list string) : list string :=
  let lines := collectLines ms in
  cutTrailing (List.length lines) lines.

(** A line that is not empty. *)
Definition nonblank (l : string) : bool := negb (slen l =? 0).

(** ** The event source *)

(** Modelled from the spec: [executeGrep] is declared outside [http.go].
    By the spec's contract of the event source it calls the callback
    synchronously and in order, once per event, and then returns an error
    or nil.  The callback is a closure over the renderer's local
    variables; here their values are passed from call to call. *)
Fixpoint executeGrep {S : Type} (fn : S -> MatchEvent -> outcome S)
         (events : list MatchEvent) (s : S) : outcome S :=
  match events with
  | [] => Done s
  | e :: rest => s' <- fn s e ;; executeGrep fn rest s'
  end.

(** The flush test at the head of both callbacks. *)
Definition flushDue (count : Z) : bool :=
  (count =? 5) || (Z.rem count 50 =? 0).

Section Renderers.

(** [units.HumanDuration] of the go-units library. *)
Variable HumanDuration : Z -> string.

(** [resultMeta.MetadataFor]: the metadata and the [found] flag. *)
Variable MetadataFor : string -> Result * bool.

(** The [start] time of the search. *)
Variable start : Z.

(** *** [renderWithContext] *)

Record CtxState := mkCtx {
  count : Z;
  lineCount : Z;
  lastName : string;
  bw : list Tok
}.

Definition ctxWrite (ts : list Tok) (st : CtxState) : CtxState :=
  mkCtx (count st) (lineCount st) (lastName st) (bw st ++ ts).

Definition ctxInit : CtxState := mkCtx 0 0 "" [].

(** The [else] branch of the callback: a new block is opened. *)
Definition ctxOpenBlock (st : CtxState) (e : MatchEvent) : outcome CtxState :=
  let st := mkCtx (count st) (lineCount st) (name e) (bw st) in
  let st := if 0 <? count st then ctxWrite [TBlockClose] st else st in
  let st := mkCtx (wrap (count st + 1)) (lineCount st) (lastName st) (bw st) in
  let result := fst (MetadataFor (name e)) in
  let age :=
    if negb (IsZero (FailedAt result))
    then (" " ++ HumanDuration (time_Sub start (FailedAt result)))%string
    else ""%string in
  let st := ctxWrite [TBlockOpen] st in
  uri <- URL_String (JobURI result) ;;
  Done (ctxWrite [THeader (FileType result) (Trigger result) uri
                          (Name result) (Number result) age] st).

(** The lines of a hit and its notice of elided lines. *)
Definition hitToks (e : MatchEvent) : list Tok :=
  map TLine (hitLines (matches e))
  ++ (if 0 <? moreLines e then [TMoreLines (moreLines e)] else []).

Definition ctxCallback (st : CtxState) (e : MatchEvent) : outcome CtxState :=
  let st := if flushDue (count st) then ctxWrite [TFlush] st else st in
  st <- (if String.eqb (lastName st) (name e)
         then Done (ctxWrite [TSeparator] st)
         else ctxOpenBlock st e) ;;
  let lines := hitLines (matches e) in
  let st := mkCtx (count st) (wrap (lineCount st + len lines)) (lastName st) (bw st) in
  Done (ctxWrite (hitToks e) st).

(** What [renderWithContext] leaves behind: the returned count and
    error, and everything handed to [bw]. *)
Record Rendered := mkRendered {
  r_count : Z;
  r_err : option string;
  r_out : list Tok
}.

Definition ctxFinish (err : option string) (st : CtxState) : Rendered :=
  let st := if 0 <? count st then ctxWrite [TBlockClose] st else st in
  let st := ctxWrite [TFlush] st in
  mkRendered (count st) err (bw st).

Definition renderWithContext (events : list MatchEvent) (err : option string)
  : outcome Rendered :=
  st <- executeGrep ctxCallback events ctxInit ;;
  Done (ctxFinish err st).

(** *** [renderSummary] *)

Record SumState := mkSum {
  s_count : Z;
  currentLines : Z;
  s_lastName : string;
  s_bw : list Tok;
  s_log : list string            (* the names passed to glog.Errorf *)
}.

Definition sumWrite (ts : list Tok) (st : SumState) : SumState :=
  mkSum (s_count st) (currentLines st) (s_lastName st) (s_bw st ++ ts) (s_log st).

Definition sumInit : SumState := mkSum 0 0 "" [TTableHead] [].

Definition sumCallback (st : SumState) (e : MatchEvent) : SumState :=
  let st := if flushDue (s_count st) then sumWrite [TFlush] st else st in
  if String.eqb (s_lastName st) (name e)
  then
    (* continue accumulating matches *)
    mkSum (s_count st) (wrap (currentLines st + 1)) (s_lastName st) (s_bw st) (s_log st)
  else
    let st := mkSum (s_count st) (currentLines st) (name e) (s_bw st) (s_log st) in
    let result := fst (MetadataFor (name e)) in
    let age :=
      if negb (IsZero (FailedAt result))
      then (HumanDuration (time_Sub start (FailedAt result)) ++ " ago")%string
      else ""%string in
    match JobURI result with
    | None =>
        (* glog.Errorf("no job URI for %q", name); return *)
        mkSum (s_count st) (currentLines st) (s_lastName st) (s_bw st)
              (s_log st ++ [name e])
    | Some uri =>
        let st :=
          if 0 <? s_count st
          then mkSum (s_count st) 0 (s_lastName st)
                     (s_bw st ++ [TCount (currentLines st); TRowClose]) (s_log st)
          else st in
        let st := mkSum (wrap (s_count st + 1)) (currentLines st) (s_lastName st)
                        (s_bw st) (s_log st) in
        let st := sumWrite [TRowOpen;
                            TRow (FileType result) uri (Name result) (Number result) age] st in
        mkSum (s_count st) (wrap (currentLines st + 1)) (s_lastName st) (s_bw st) (s_log st)
    end.

Definition sumFinish (err : option string) (st : SumState) : Rendered :=
  let st := if 0 <? s_count st
            then sumWrite [TCount (currentLines st); TRowClose] st else st in
  let st := sumWrite [TFlush] st in
  mkRendered (s_count st) err (s_bw st).

Definition sumRun (events : list MatchEvent) (st : SumState) : SumState :=
  fold_left sumCallback events st.

Definition renderSummary (events : list MatchEvent) (err : option string) : Rendered :=
  sumFinish err (sumRun events sumInit).

End Renderers.

(** ** Query normalization: [parseRequest] *)

(** The form of a request after [req.ParseForm]: the values that
    [parseRequest] reads, [FormValue] giving the empty string for an
    absent key. *)
Record Request := mkRequest {
  formError : option string;
  form_search : list string;
  form_type : string;
  form_name : string;
  form_maxAge : string;
  form_context : string
}.

(** The errors [parseRequest] returns, one constructor per [return nil, ...]. *)
Inductive RequestError : Type :=
| ErrForm (msg : string)           (* the error of req.ParseForm *)
| ErrSearchType                    (* search must be 'junit', 'build-log', or 'all' *)
| ErrName (msg : string)           (* name is an invalid regular expression *)
| ErrMaxAgeInvalid (msg : string)  (* maxAge is an invalid duration *)
| ErrMaxAgeNegative                (* maxAge must be non-negative *)
| ErrContext.                      (* context must be a number between -1 and 15 *)

Definition andThen {E A B} (m : E + A) (k : A -> E + B) : E + B :=
  match m with
  | inl e => inl e
  | inr a => k a
  end.

Notation "'try' x ':=' m 'in' k" := (andThen m (fun x => k))
  (at level 61, x name, m at next level, right associativity).

(** [time.Hour] in nanoseconds. *)
Definition Hour : Z := 3600 * 1000000000.

(** The patterns substituted in chart mode when the request has none. *)
Definition chartSearch : list string :=
  [ "could not create or restart template instance.*";
    "could not (wait for|get) build.*";
    "level=error.*timeout while waiting for state.*";
    "Container setup exited with code ., reason Error";
    "no providers available to validate pod";
    "Error deleting EBS volume .* since volume is currently attached";
    "clusteroperator/.* changed Degraded to True: .*";
    "Cluster operator .* is still updating.*";
    "Pod .* is not healthy";
    "failed: \(.*" ]%string.

Section Normalization.

(** A compiled regular expression and [regexp.Compile]. *)
Variable Regexp : Type.
Variable regexpCompile : string -> string + Regexp.

(** [time.ParseDuration], a [Duration] being int64 nanoseconds. *)
Variable ParseDuration : string -> string + Z.

(** [strconv.Atoi]. *)
Variable Atoi : string -> string + Z.

(** The [MaxAge] option of the server. *)
Variable serverMaxAge : Z.

(** Modelled from the spec: the [Index] struct is declared outside
    [http.go]; these are the fields of the query descriptor that
    [http.go] writes and reads. *)
Record Index := mkIndex {
  Search : list string;
  SearchType : string;
  Job : option Regexp;
  MaxAge : Z;
  Context : Z
}.

Definition parseSearchType (value : string) : RequestError + string :=
  if String.eqb value "junit" then inr "junit"%string
  else if String.eqb value "build-log" then inr "build-log"%string
  else if String.eqb value "all" || String.eqb value "" then inr "all"%string
  else inl ErrSearchType.

Definition parseJob (value mode : string) : RequestError + option Regexp :=
  if (0 <? slen value) || String.eqb mode "chart" then
    let value := if slen value =? 0 then "-e2e-"%string else value in
    match regexpCompile value with
    | inl msg => inl (ErrName msg)
    | inr re => inr (Some re)
    end
  else inr None.

(** The value of [index.MaxAge] after the [maxAge] form value is read. *)
Definition parseMaxAge (value : string) : RequestError + Z :=
  if 0 <? slen value then
    match ParseDuration value with
    | inl msg => inl (ErrMaxAgeInvalid msg)
    | inr maxAge => if maxAge <? 0 then inl ErrMaxAgeNegative else inr maxAge
    end
  else inr 0.

(** The ceiling that the server puts on [index.MaxAge]. *)
Definition clampMaxAge (indexMaxAge : Z) (mode : string) : Z :=
  let maxAge := serverMaxAge in
  let maxAge := if maxAge =? 0 then 7 * 24 * Hour else maxAge in
  let maxAge := if String.eqb mode "chart" && (24 * Hour <? maxAge)
                then 24 * Hour else maxAge in
  if (indexMaxAge =? 0) || (maxAge <? indexMaxAge) then maxAge else indexMaxAge.

Definition parseContext (context mode : string) : RequestError + Z :=
  if 0 <? slen context then
    match Atoi context with
    | inl _ => inl ErrContext
    | inr num => if (num <? -1) || (15 <? num) then inl ErrContext else inr num
    end
  else if String.eqb mode "text" then inr 2
  else inr 0.

Definition parseRequest (req : Request) (mode : string) : RequestError + Index :=
  match formError req with
  | Some msg => inl (ErrForm msg)
  | None =>
      let search :=
        if (len (form_search req) =? 0) && String.eqb mode "chart"
        then form_search req ++ chartSearch else form_search req in
      try searchType := parseSearchType (form_type req) in
      try job := parseJob (form_name req) mode in
      try maxAge := parseMaxAge (form_maxAge req) in
      let maxAge := clampMaxAge maxAge mode in
      try context := parseContext (form_context req) mode in
      inr (mkIndex search searchType job maxAge context)
  end.

(** *** The renderer choice of [handleIndex] *)

Variable HumanDuration : Z -> string.
Variable MetadataFor : string -> Result * bool.

(** The command generator and [executeGrep] together: the events that
    a query delivers and the error it ends with. *)
Variable generator : Index -> list MatchEvent * option string.

Inductive Renderer : Type := ContextRenderer | SummaryRenderer.

(** What [handleIndex] answers: a 400 for bad input, the landing page
    for an empty search, or the page with the output of one renderer. *)
Inductive Response : Type :=
| BadInput (e : RequestError)
| EmptyPage
| SearchPage (r : Renderer) (rendered : outcome Rendered).

Definition handleIndex (req : Request) (start : Z) : Response :=
  match parseRequest req "text" with
  | inl e => BadInput e
  | inr index =>
      let index :=
        if len (Search index) =? 0
        then mkIndex [""%string] (SearchType index) (Job index) (MaxAge index) (Context index)
        else index in
      if slen (hd ""%string (Search index)) =? 0 then EmptyPage
      else
        let '(events, err) := generator index in
        if 0 <=? Context index
        then SearchPage ContextRenderer
               (renderWithContext HumanDuration MetadataFor start events err)
        else SearchPage SummaryRenderer
               (Done (renderSummary HumanDuration MetadataFor start events err))
  end.

End Normalization.

Arguments mkIndex {Regexp}.
Arguments Search {Regexp}.
Arguments SearchType {Regexp}.
Arguments Job {Regexp}.
Arguments MaxAge {Regexp}.
Arguments Context {Regexp}.

(** The descriptor that [handleIndex] searches with: an absent search
    becomes the single empty pattern. *)
Definition searched {Regexp : Type} (index : Index Regexp) : Index Regexp :=
  if len (Search index) =? 0
  then mkIndex [""%string] (SearchType index) (Job index) (MaxAge index) (Context index)
  else index.

(** ** Reading the output *)

Definition isFlush (t : Tok) : bool :=
  match t with TFlush => true | _ => false end.
Definition isSeparator (t : Tok) : bool :=
  match t with TSeparator => true | _ => false end.
Definition isBlockOpen (t : Tok) : bool :=
  match t with TBlockOpen => true | _ => false end.
Definition isHeader (t : Tok) : bool :=
  match t with THeader _ _ _ _ _ _ => true | _ => false end.

Definition countTok (p : Tok -> bool) (out : list Tok) : nat :=
  List.length (filter p out).

(** The output with the calls of [Flush] left out. *)
Definition withoutFlush (out : list Tok) : list Tok :=
  filter (fun t => negb (isFlush t)) out.

(** What one callback flushes and closes on entry, from the value of
    [count] it finds. *)
Definition flushTok (c : Z) : list Tok := if flushDue c then [TFlush] else [].
Definition closeTok (c : Z) : list Tok := if 0 <? c then [TBlockClose] else [].

(** How many of the [n] counts from [c] on are due for a flush. *)
Fixpoint dueCount (c : Z) (n : nat) : nat :=
  match n with
  | O => O
  | S n' => ((if flushDue c then 1 else 0) + dueCount (c + 1) n')%nat
  end.

(** ** Blocks, in the words of the specification *)

(** A block is a maximal run of consecutive events sharing a source
    identifier: [runsFrom cur k evs] are the blocks of a stream whose
    open run of [cur] has [k] events so far. *)
Fixpoint runsFrom (cur : string) (k : nat) (evs : list MatchEvent)
  : list (string * nat) :=
  match evs with
  | [] => [(cur, k)]
  | e :: rest =>
      if String.eqb cur (name e)
      then runsFrom cur (S k) rest
      else (cur, k) :: runsFrom (name e) 1 rest
  end.

Definition blocks (evs : list MatchEvent) : list (string * nat) :=
  match evs with
  | [] => []
  | e :: rest => runsFrom (name e) 1 rest
  end.

(** Every event opens a block of its own: its source differs from the
    one before it, [prev] being the source before the first. *)
Fixpoint freshFrom (prev : string) (evs : list MatchEvent) : Prop :=
  match evs with
  | [] => True
  | e :: rest => prev <> name e /\ freshFrom (name e) rest
  end.

Section Expected.

Variable HumanDuration : Z -> string.
Variable MetadataFor : string -> Result * bool.
Variable start : Z.

(** The source resolves to metadata that carries a job URL. *)
Definition hasJobURI (n : string) : Prop :=
  JobURI (fst (MetadataFor n)) <> None.

Definition uriText (r : Result) : string :=
  match JobURI r with Some u => u | None => ""%string end.

(** The header of the context block of a source. *)
Definition headerOf (n : string) : Tok :=
  let r := fst (MetadataFor n) in
  THeader (FileType r) (Trigger r) (uriText r) (Name r) (Number r)
    (if negb (IsZero (FailedAt r))
     then (" " ++ HumanDuration (time_Sub start (FailedAt r)))%string
     else ""%string).

(** The cells of the summary row of a source. *)
Definition rowOf (n : string) : Tok :=
  let r := fst (MetadataFor n) in
  TRow (FileType r) (uriText r) (Name r) (Number r)
    (if negb (IsZero (FailedAt r))
     then (HumanDuration (time_Sub start (FailedAt r)) ++ " ago")%string
     else ""%string).

(** A context block holding one hit. *)
Definition blockOf (e : MatchEvent) : list Tok :=
  [TBlockOpen; headerOf (name e)] ++ hitToks e ++ [TBlockClose].

(** The summary row of a block with its number of hits. *)
Definition rowToks (b : string * nat) : list Tok :=
  [TRowOpen; rowOf (fst b); TCount (Z.of_nat (snd b)); TRowClose].

(** The rows of the blocks of a stream whose first row is open
    already: the count and end of that row, then the other rows. *)
Definition pendingToks (bs : list (string * nat)) : list Tok :=
  match bs with
  | [] => []
  | b :: rest => [TCount (Z.of_nat (snd b)); TRowClose] ++ flat_map rowToks rest
  end.

End Expected.

(** ** Sample inputs *)

Definition sampleDuration (d : Z) : string := "some time".

Definition sampleResult (n : string) : Result :=
  mkResult 0 (Some ("https://ci.example/" ++ n)%string) "junit" "pull" n 7.

(** A resolver that knows every source (the empty one too). *)
Definition resolveAll (n : string) : Result * bool := (sampleResult n, true).

(** A resolver that misses the source [X] and knows every other one. *)
Definition resolveButX (n : string) : Result * bool :=
  if String.eqb n "X" then (zeroResult, false) else (sampleResult n, true).

Definition hit (n : string) (ls : list string) : MatchEvent := mkEvent n "timeout" ls 0.

(** [n] single-hit events of distinct sources, named by their unary length. *)
Fixpoint distinctHits (n : nat) (nm : string) : list MatchEvent :=
  match n with
  | O => []
  | S n' => hit nm ["failed"%string] :: distinctHits n' (String "a" nm)
  end.

(** Stand-ins for the library parsers in the examples: regular
    expressions kept as their text, a reader of a few durations and a
    reader of signed decimal numbers. *)
Definition sampleCompile (value : string) : string + string := inr value.

Definition sampleParseDuration (value : string) : string + Z :=
  if String.eqb value "6h" then inr (6 * Hour)
  else if String.eqb value "-1h" then inr (- Hour)
  else inl "invalid duration"%string.

Definition digitOf (c : ascii) : option Z :=
  let n := Z.of_nat (nat_of_ascii c) in
  if (48 <=? n) && (n <=? 57) then Some (n - 48) else None.

Fixpoint readDigits (acc : Z) (s : string) : option Z :=
  match s with
  | EmptyString => Some acc
  | String c rest =>
      match digitOf c with
      | Some d => readDigits (acc * 10 + d) rest
      | None => None
      end
  end.

Definition sampleAtoi (s : string) : string + Z :=
  let syntax := inl "invalid syntax"%string in
  match s with
  | EmptyString => syntax
  | String c rest =>
      let '(negative, body) :=
        if Ascii.eqb c "-" then (true, rest)
        else if Ascii.eqb c "+" then (false, rest) else (false, s) in
      match body with
      | EmptyString => syntax
      | _ =>
          match readDigits 0 body with
          | Some n =>
              let v := if negative then - n else n in
              if (- 2 ^ 63 <=? v) && (v <=? int_max) then inr v
              else inl "value out of range"%string
          | None => syntax
          end
      end
  end.

Definition sampleGenerator {R : Type} (evs : list MatchEvent) (index : Index R)
  : list MatchEvent * option string := (evs, None).

Definition sampleRequest (type maxAge context : string) : Request :=
  mkRequest None ["timeout"%string] type "" maxAge context.

(** ** More readings of the output *)

Definition isBlockClose (t : Tok) : bool :=
  match t with TBlockClose => true | _ => false end.
Definition isRowOpen (t : Tok) : bool :=
  match t with TRowOpen => true | _ => false end.
Definition isRowClose (t : Tok) : bool :=
  match t with TRowClose => true | _ => false end.
Definition isRow (t : Tok) : bool :=
  match t with TRow _ _ _ _ _ => true | _ => false end.
Definition isCount (t : Tok) : bool :=
  match t with TCount _ => true | _ => false end.

(** The text lines of the output, in the order they were written. *)
Fixpoint linesOf (out : list Tok) : list string :=
  match out with
  | [] => []
  | TLine l :: rest => l :: linesOf rest
  | _ :: rest => linesOf rest
  end.

(** The numbers of the notices of elided lines, in order. *)
Fixpoint noticesOf (out : list Tok) : list Z :=
  match out with
  | [] => []
  | TMoreLines n :: rest => n :: noticesOf rest
  | _ :: rest => noticesOf rest
  end.

(** The hit counts written into the rows, in order. *)
Fixpoint countsOf (out : list Tok) : list Z :=
  match out with
  | [] => []
  | TCount n :: rest => n :: countsOf rest
  | _ :: rest => countsOf rest
  end.

Definition sumZ (l : list Z) : Z := fold_right Z.add 0 l.

(** The sources at which the tracked source changes: the source of
    every event that differs from the source of the event before it,
    [prev] standing before the first event. *)
Fixpoint openers (prev : string) (evs : list MatchEvent) : list string :=
  match evs with
  | [] => []
  | e :: rest =>
      if String.eqb prev (name e) then openers prev rest
      else name e :: openers (name e) rest
  end.

(** The elided-line counts that get a notice. *)
Definition elided (evs : list MatchEvent) : list Z :=
  filter (fun n => 0 <? n) (map moreLines evs).

Definition hasJobURIb (MetadataFor : string -> Result * bool) (n : string) : bool :=
  match JobURI (fst (MetadataFor n)) with
  | Some _ => true
  | None => false
  end.

(** ** The form of [handleIndex] *)

(** [intSelected] and [durationSelected]. *)
Definition intSelected (current expected : Z) : string :=
  if current =? expected then "selected"%string else ""%string.

Definition durationSelected (current expected : Z) : string :=
  if current =? expected then "selected"%string else ""%string.

(** One [<option value=".." ..>..</option>] of a select: the value, the
    text put in place of the attribute, and the label. *)
Record FormOption := mkOption {
  o_value : string;
  o_attr : string;
  o_label : string
}.

Definition isSelected (o : FormOption) : bool := String.eqb (o_attr o) "selected".

Section Form.

(** [strconv.Itoa], [time.Duration.String] and
    [template.HTMLEscapeString]. *)
Variable Itoa : Z -> string.
Variable DurationString : Z -> string.
Variable HTMLEscapeString : string -> string.

Definition isStandardContext (c : Z) : bool :=
  (c =? -1) || (c =? 0) || (c =? 1) || (c =? 2) || (c =? 3)
  || (c =? 5) || (c =? 7) || (c =? 10) || (c =? 15).

Definition contextOptions (context : Z) : list FormOption :=
  [ mkOption "-1" (intSelected 1 context) "Links";
    mkOption "0" (intSelected 0 context) "No context";
    mkOption "1" (intSelected 1 context) "1 lines";
    mkOption "2" (intSelected 2 context) "2 lines";
    mkOption "3" (intSelected 3 context) "3 lines";
    mkOption "5" (intSelected 5 context) "5 lines";
    mkOption "7" (intSelected 7 context) "7 lines";
    mkOption "10" (intSelected 10 context) "10 lines";
    mkOption "15" (intSelected 15 context) "15 lines" ]
  ++ (if isStandardContext context then []
      else let text := HTMLEscapeString (Itoa context) in
           [mkOption text "selected" text]).

Definition searchTypeOptions (searchType : string) : list FormOption :=
  map (fun ty =>
         mkOption (HTMLEscapeString ty)
                  (if String.eqb ty searchType then "selected"%string else ""%string)
                  (HTMLEscapeString ty))
      ["junit"; "build-log"; "all"]%string.

Definition isStandardMaxAge (d : Z) : bool :=
  (d =? 6 * Hour) || (d =? 12 * Hour) || (d =? 24 * Hour)
  || (d =? 48 * Hour) || (d =? 168 * Hour) || (d =? 336 * Hour).

Definition maxAgeOptions (maxAge : Z) : list FormOption :=
  [ mkOption "6h" (durationSelected (6 * Hour) maxAge) "6h";
    mkOption "12h" (durationSelected (12 * Hour) maxAge) "12h";
    mkOption "24h" (durationSelected (24 * Hour) maxAge) "1d";
    mkOption "48h" (durationSelected (48 * Hour) maxAge) "2d";
    mkOption "168h" (durationSelected (168 * Hour) maxAge) "7d";
    mkOption "336h" (durationSelected (336 * Hour) maxAge) "14d" ]
  ++ (if isStandardMaxAge maxAge then []
      else if maxAge =? 0 then [mkOption "0" "selected" "No limit"]
      else let text := HTMLEscapeString (DurationString maxAge) in
           [mkOption text "selected" text]).

End Form.

(** ** [handleConfig] *)

(** What [handleConfig] answers: 204, 500 with the read error, or the
    text of the file. *)
Inductive ConfigResponse : Type :=
| NoContent
| ConfigError (msg : string)
| ConfigText (data : string).

(** [ReadFile] is [ioutil.ReadFile]; the result pairs the value left
    in [o.ConfigPath] with the answer. *)
Definition handleConfig (ReadFile : string -> string + string) (configPath : string)
  : string * ConfigResponse :=
  let configPath := "README.md"%string in
  if String.eqb configPath "" then (configPath, NoContent)
  else
    match ReadFile configPath with
    | inl err => (configPath, ConfigError err)
    | inr data => (configPath, ConfigText data)
    end.

(** ** Spaces at the end of a line *)

Fixpoint spaces (k : nat) : string :=
  match k with
  | O => EmptyString
  | S k' => String " " (spaces k')
  end.

Fixpoint endsWithSpace (s : string) : bool :=
  match s with
  | EmptyString => false
  | String c EmptyString => Ascii.eqb c " "
  | String _ rest => endsWithSpace rest
  end.

(** The option that stands for no age limit. *)
Definition noLimitOption : FormOption := mkOption "0" "selected" "No limit".

(** ** More sample inputs *)

(** A stream in which the source A comes back after B. *)
Definition sampleStream : list MatchEvent :=
  [ hit "A" ["x"%string];
    hit "B" ["y  "; ""]%string;
    mkEvent "B" "timeout" ["z"%string] 3;
    hit "A" ["w"%string] ].

Definition sampleContextOutput : Rendered :=
  Eval vm_compute in
    match renderWithContext sampleDuration resolveAll 0 sampleStream None with
    | Done r => r
    | Panicked _ => mkRendered 0 None []
    end.

Definition sampleText (z : Z) : string := "custom".

Definition sampleEscape (s : string) : string := s.

Definition sampleReadFile (path : string) : string + string :=
  if String.eqb path "README.md" then inr "# ci-search"%string
  else inl "no such file"%string.

(** A stream with a block of the source X, which [resolveButX] misses. *)
Definition sampleSkipStream : list MatchEvent :=
  [ hit "A" ["x"%string]; hit "X" ["y"%string]; hit "X" ["z"%string]; hit "B" ["w"%string] ].

(** ** Arithmetic of Go's [int] *)

Lemma wrap_small (z : Z) : - 2 ^ 63 <= z <= int_max -> wrap z = z.
Proof.
  unfold wrap, int_max. intros H.
  rewrite Z.mod_small; lia.
Qed.

Lemma len_nonneg {A} (l : list A) : 0 <= len l.
Proof. unfold len. lia. Qed.

Lemma len_cons {A} (a : A) (l : list A) : len (a :: l) = len l + 1.
Proof. unfold len. cbn [List.length]. lia. Qed.

(** ** Facts about the trimming of a hit *)

Lemma keepLine_fold (ms : list string) :
  forall acc, fold_left keepLine ms acc = acc ++ filter nonblank (map TrimRight ms).
Proof.
  induction ms as [| m ms IH]; intros acc; cbn [fold_left map filter].
  - now rewrite app_nil_r.
  - rewrite IH. unfold keepLine, nonblank.
    destruct (slen (TrimRight m) =? 0); cbn [negb].
    + reflexivity.
    + now rewrite <- app_assoc.
Qed.

Lemma collectLines_filter (ms : list string) :
  collectLines ms = filter nonblank (map TrimRight ms).
Proof. unfold collectLines. now rewrite keepLine_fold. Qed.

Lemma cutTrailing_nonblank (n : nat) (lines : list string) :
  Forall (fun l => nonblank l = true) lines -> cutTrailing n lines = lines.
Proof.
  intros Hall. destruct n as [| i]; cbn [cutTrailing]; [reflexivity |].
  destruct (nth_error lines i) as [l |] eqn:Hnth; [| reflexivity].
  apply nth_error_In in Hnth.
  rewrite Forall_forall in Hall. specialize (Hall l Hnth).
  unfold nonblank in Hall. now rewrite Hall.
Qed.

Lemma hitLines_filter (ms : list string) :
  hitLines ms = filter nonblank (map TrimRight ms).
Proof.
  unfold hitLines. rewrite cutTrailing_nonblank.
  - apply collectLines_filter.
  - rewrite collectLines_filter. apply Forall_forall.
    intros l Hl. now apply filter_In in Hl.
Qed.

Lemma TrimRight_spaces_only (s : string) :
  (forall c, In c (list_ascii_of_string s) -> c = " "%char) -> TrimRight s = EmptyString.
Proof.
  induction s as [| c s IH]; intros Hall; cbn [TrimRight]; [reflexivity |].
  rewrite IH.
  - rewrite (Hall c); [reflexivity | cbn; now left].
  - intros c' Hc'. apply Hall. cbn. now right.
Qed.

(** A hit whose lines are all blank keeps no line. *)
Lemma hitLines_all_blank (ms : list string) :
  Forall (fun m => TrimRight m = EmptyString) ms -> hitLines ms = [].
Proof.
  intros Hall. rewrite hitLines_filter.
  induction Hall as [| m ms Hm _ IH]; [reflexivity |].
  cbn [map filter]. unfold nonblank at 1. rewrite Hm. exact IH.
Qed.

(** ** Counting in the output *)

Lemma countTok_app (p : Tok -> bool) (a b : list Tok) :
  countTok p (a ++ b) = (countTok p a + countTok p b)%nat.
Proof. unfold countTok. now rewrite filter_app, length_app. Qed.

Lemma withoutFlush_app (a b : list Tok) :
  withoutFlush (a ++ b) = withoutFlush a ++ withoutFlush b.
Proof. apply filter_app. Qed.

Lemma withoutFlush_flushTok (c : Z) : withoutFlush (flushTok c) = [].
Proof. unfold flushTok. now destruct (flushDue c). Qed.

Lemma countTok_flushTok (c : Z) :
  countTok isFlush (flushTok c) = if flushDue c then 1%nat else 0%nat.
Proof. unfold flushTok. now destruct (flushDue c). Qed.

Lemma countTok_flushTok_other (p : Tok -> bool) (c : Z) :
  p TFlush = false -> countTok p (flushTok c) = 0%nat.
Proof.
  intros Hp. unfold flushTok, countTok.
  destruct (flushDue c); cbn [filter]; [now rewrite Hp | reflexivity].
Qed.

(** The tokens of a hit are lines and at most one notice. *)
Lemma hitToks_plain (p : Tok -> bool) (e : MatchEvent) :
  (forall l, p (TLine l) = false) -> (forall n, p (TMoreLines n) = false) ->
  countTok p (hitToks e) = 0%nat.
Proof.
  intros Hl Hm. unfold hitToks. rewrite countTok_app.
  assert (Hlines : forall ls, countTok p (map TLine ls) = 0%nat).
  { induction ls as [| l ls IH]; [reflexivity |].
    unfold countTok in *. cbn [map filter]. now rewrite Hl. }
  rewrite Hlines. unfold countTok.
  destruct (0 <? moreLines e); cbn [filter]; [now rewrite Hm | reflexivity].
Qed.

Lemma withoutFlush_hitToks (e : MatchEvent) : withoutFlush (hitToks e) = hitToks e.
Proof.
  unfold hitToks. rewrite withoutFlush_app. f_equal.
  - induction (hitLines (matches e)) as [| l ls IH]; [reflexivity |].
    cbn [map]. unfold withoutFlush in *. cbn [filter isFlush negb]. now rewrite IH.
  - now destruct (0 <? moreLines e).
Qed.

Lemma countTok_withoutFlush (p : Tok -> bool) (out : list Tok) :
  p TFlush = false -> countTok p (withoutFlush out) = countTok p out.
Proof.
  intros Hp. induction out as [| t out IH]; [reflexivity |].
  unfold countTok, withoutFlush in *. cbn [filter].
  destruct (isFlush t) eqn:Ht; cbn [negb filter].
  - destruct t; try discriminate. now rewrite Hp.
  - destruct (p t); cbn [List.length]; now rewrite IH.
Qed.

Section RendererFacts.

Variable HumanDuration : Z -> string.
Variable MetadataFor : string -> Result * bool.
Variable start : Z.

Local Abbreviation ctxCallback := (ctxCallback HumanDuration MetadataFor start).
Local Abbreviation sumCallback := (sumCallback HumanDuration MetadataFor start).
Local Abbreviation sumRun := (sumRun HumanDuration MetadataFor start).
Local Abbreviation renderWithContext := (renderWithContext HumanDuration MetadataFor start).
Local Abbreviation renderSummary := (renderSummary HumanDuration MetadataFor start).
Local Abbreviation hasJobURI := (hasJobURI MetadataFor).
Local Abbreviation headerOf := (headerOf HumanDuration MetadataFor start).
Local Abbreviation rowOf := (rowOf HumanDuration MetadataFor start).
Local Abbreviation blockOf := (blockOf HumanDuration MetadataFor start).
Local Abbreviation rowToks := (rowToks HumanDuration MetadataFor start).

(** *** The three ways through the callback of [renderWithContext] *)

Lemma ctxCallback_same (st : CtxState) (e : MatchEvent) :
  lastName st = name e ->
  ctxCallback st e =
    Done (mkCtx (count st) (wrap (lineCount st + len (hitLines (matches e))))
                (lastName st)
                (bw st ++ flushTok (count st) ++ [TSeparator] ++ hitToks e)).
Proof.
  intros Hsame. unfold ctxCallback, flushTok, ctxWrite.
  destruct (flushDue (count st)); cbn [count lineCount lastName bw];
    rewrite <- Hsame, String.eqb_refl; cbn [bind count lineCount lastName bw];
    rewrite <- ?app_assoc; reflexivity.
Qed.

Lemma ctxCallback_new (st : CtxState) (e : MatchEvent) :
  lastName st <> name e -> hasJobURI (name e) ->
  ctxCallback st e =
    Done (mkCtx (wrap (count st + 1)) (wrap (lineCount st + len (hitLines (matches e))))
                (name e)
                (bw st ++ flushTok (count st) ++ closeTok (count st)
                       ++ [TBlockOpen; headerOf (name e)] ++ hitToks e)).
Proof.
  intros Hnew Huri. apply String.eqb_neq in Hnew.
  unfold hasJobURI in Huri.
  unfold ctxCallback, ctxOpenBlock, flushTok, closeTok, headerOf, uriText, ctxWrite.
  destruct (JobURI (fst (MetadataFor (name e)))) as [u |] eqn:Hu; [| congruence].
  destruct (flushDue (count st)); cbn [count lineCount lastName bw];
    rewrite Hnew; destruct (0 <? count st);
    cbn [bind count lineCount lastName bw URL_String];
    rewrite <- ?app_assoc; reflexivity.
Qed.

Lemma ctxCallback_nil_uri (st : CtxState) (e : MatchEvent) :
  lastName st <> name e -> JobURI (fst (MetadataFor (name e))) = None ->
  ctxCallback st e = Panicked nil_dereference.
Proof.
  intros Hnew Hnil. apply String.eqb_neq in Hnew.
  unfold ctxCallback, ctxOpenBlock, ctxWrite.
  destruct (flushDue (count st)); cbn [count lineCount lastName bw];
    rewrite Hnew; destruct (0 <? count st);
    cbn [bind count lineCount lastName bw]; rewrite Hnil; reflexivity.
Qed.

(** *** Runs of events of one source in [renderWithContext] *)

(** Further hits of the open block: each one writes a separator and
    its lines, and leaves [count] and [lastName] alone. *)
Lemma ctx_continue (es : list MatchEvent) :
  forall st : CtxState,
    Forall (fun e => name e = lastName st) es ->
    exists st',
      executeGrep ctxCallback es st = Done st'
      /\ count st' = count st
      /\ lastName st' = lastName st
      /\ bw st' = bw st ++ flat_map (fun e => flushTok (count st) ++ TSeparator :: hitToks e) es.
Proof.
  induction es as [| e es IH]; intros st Hall.
  - exists st. cbn [executeGrep flat_map]. now rewrite app_nil_r.
  - inversion Hall as [| ? ? Hname Hrest]; subst.
    cbn [executeGrep]. rewrite ctxCallback_same by congruence. cbn [bind].
    destruct (IH (mkCtx (count st) (wrap (lineCount st + len (hitLines (matches e))))
                        (lastName st)
                        (bw st ++ flushTok (count st) ++ [TSeparator] ++ hitToks e)))
      as (st' & Hrun & Hc & Hn & Hbw).
    { exact Hrest. }
    cbn [count lastName bw] in Hc, Hn, Hbw.
    exists st'. repeat split; try assumption.
    rewrite Hbw. cbn [flat_map]. now rewrite <- !app_assoc.
Qed.

(** Events that each open a block of their own. *)
Lemma ctx_fresh (evs : list MatchEvent) :
  forall st : CtxState,
    freshFrom (lastName st) evs ->
    Forall (fun e => hasJobURI (name e)) evs ->
    0 <= count st -> count st + len evs <= int_max ->
    exists st',
      executeGrep ctxCallback evs st = Done st'
      /\ count st' = count st + len evs
      /\ countTok isFlush (bw st')
         = (countTok isFlush (bw st) + dueCount (count st) (List.length evs))%nat
      /\ withoutFlush (bw st') ++ closeTok (count st')
         = withoutFlush (bw st) ++ closeTok (count st) ++ flat_map blockOf evs.
Proof.
  induction evs as [| e evs IH]; intros st Hfresh Huri Hc Hmax.
  - exists st. unfold len. cbn [executeGrep flat_map dueCount List.length].
    repeat split; try lia. now rewrite app_nil_r.
  - destruct Hfresh as [Hnew Hfresh].
    inversion Huri as [| ? ? He Hrest]; subst.
    rewrite len_cons in Hmax. pose proof (len_nonneg evs) as Hlen.
    cbn [executeGrep]. rewrite ctxCallback_new by assumption. cbn [bind].
    rewrite (wrap_small (count st + 1)) by (unfold int_max in *; lia).
    match goal with |- context [executeGrep _ evs ?s] => destruct (IH s) as (st' & Hrun & Hcount & Hfl & Hout) end;
      cbn [count lastName bw]; try assumption; try lia.
    cbn [count lastName bw] in Hcount, Hfl, Hout.
    exists st'. split; [exact Hrun |]. split; [rewrite Hcount, len_cons; lia |]. split.
    + rewrite Hfl. rewrite !countTok_app, countTok_flushTok.
      rewrite (hitToks_plain isFlush) by reflexivity.
      cbn [dueCount List.length]. unfold closeTok.
      destruct (flushDue (count st)), (0 <? count st); cbn; lia.
    + rewrite Hout. rewrite !withoutFlush_app, withoutFlush_flushTok, withoutFlush_hitToks.
      assert (Hopen : closeTok (count st + 1) = [TBlockClose]).
      { unfold closeTok. destruct (0 <? count st + 1) eqn:Hlt; [reflexivity |].
        apply Z.ltb_ge in Hlt. lia. }
      rewrite Hopen. cbn [flat_map]. unfold blockOf at 2.
      assert (Hclose : withoutFlush (closeTok (count st)) = closeTok (count st)).
      { unfold closeTok. now destruct (0 <? count st). }
      rewrite Hclose. cbn [app withoutFlush filter isFlush negb].
      rewrite <- !app_assoc. reflexivity.
Qed.

(** *** The three ways through the callback of [renderSummary] *)

Local Abbreviation pendingToks := (pendingToks HumanDuration MetadataFor start).

Lemma sumCallback_same (st : SumState) (e : MatchEvent) :
  s_lastName st = name e ->
  sumCallback st e =
    mkSum (s_count st) (wrap (currentLines st + 1)) (s_lastName st)
          (s_bw st ++ flushTok (s_count st)) (s_log st).
Proof.
  intros Hsame. unfold sumCallback, flushTok, sumWrite.
  destruct (flushDue (s_count st)); cbn [s_count currentLines s_lastName s_bw s_log];
    rewrite <- Hsame, String.eqb_refl; rewrite ?app_nil_r; reflexivity.
Qed.

Lemma sumCallback_skip (st : SumState) (e : MatchEvent) :
  s_lastName st <> name e -> JobURI (fst (MetadataFor (name e))) = None ->
  sumCallback st e =
    mkSum (s_count st) (currentLines st) (name e)
          (s_bw st ++ flushTok (s_count st)) (s_log st ++ [name e]).
Proof.
  intros Hnew Hnil. apply String.eqb_neq in Hnew.
  unfold sumCallback, flushTok, sumWrite.
  destruct (flushDue (s_count st)); cbn [s_count currentLines s_lastName s_bw s_log];
    rewrite Hnew, Hnil; cbn [s_count currentLines s_lastName s_bw s_log];
    rewrite ?app_nil_r; reflexivity.
Qed.

Lemma sumCallback_new (st : SumState) (e : MatchEvent) :
  s_lastName st <> name e -> hasJobURI (name e) ->
  sumCallback st e =
    mkSum (wrap (s_count st + 1))
          (wrap ((if 0 <? s_count st then 0 else currentLines st) + 1))
          (name e)
          (s_bw st ++ flushTok (s_count st)
                ++ (if 0 <? s_count st then [TCount (currentLines st); TRowClose] else [])
                ++ [TRowOpen; rowOf (name e)])
          (s_log st).
Proof.
  intros Hnew Huri. apply String.eqb_neq in Hnew. unfold hasJobURI in Huri.
  unfold sumCallback, flushTok, sumWrite, rowOf, uriText.
  destruct (JobURI (fst (MetadataFor (name e)))) as [u |] eqn:Hu; [| congruence].
  destruct (flushDue (s_count st)); cbn [s_count currentLines s_lastName s_bw s_log];
    rewrite Hnew; destruct (0 <? s_count st);
    cbn [s_count currentLines s_lastName s_bw s_log app];
    rewrite <- ?app_assoc; reflexivity.
Qed.

(** Whatever the way, a callback flushes on entry when [count] is due
    and nowhere else. *)
Lemma sumCallback_flush (st : SumState) (e : MatchEvent) :
  exists rest,
    s_bw (sumCallback st e) = s_bw st ++ flushTok (s_count st) ++ rest
    /\ countTok isFlush rest = 0%nat.
Proof.
  destruct (String.eqb_spec (s_lastName st) (name e)) as [Hsame | Hnew].
  - rewrite sumCallback_same by assumption. exists []. now rewrite app_nil_r.
  - destruct (JobURI (fst (MetadataFor (name e)))) as [u |] eqn:Hu.
    + rewrite sumCallback_new by (assumption || (unfold hasJobURI; congruence)).
      eexists. split; [reflexivity |]. now destruct (0 <? s_count st).
    + rewrite sumCallback_skip by assumption. exists []. now rewrite app_nil_r.
Qed.

Lemma ctxCallback_flush (st st' : CtxState) (e : MatchEvent) :
  ctxCallback st e = Done st' ->
  exists rest,
    bw st' = bw st ++ flushTok (count st) ++ rest
    /\ countTok isFlush rest = 0%nat.
Proof.
  destruct (String.eqb_spec (lastName st) (name e)) as [Hsame | Hnew].
  - rewrite ctxCallback_same by assumption. intros [= <-]. cbn [bw].
    exists ([TSeparator] ++ hitToks e). split; [reflexivity |].
    rewrite countTok_app, (hitToks_plain isFlush) by reflexivity. reflexivity.
  - destruct (JobURI (fst (MetadataFor (name e)))) as [u |] eqn:Hu.
    + rewrite ctxCallback_new by (assumption || (unfold hasJobURI; congruence)).
      intros [= <-]. cbn [bw].
      exists (closeTok (count st) ++ [TBlockOpen; headerOf (name e)] ++ hitToks e).
      split; [reflexivity |].
      rewrite !countTok_app, (hitToks_plain isFlush) by reflexivity.
      unfold closeTok. now destruct (0 <? count st).
    + rewrite ctxCallback_nil_uri by assumption. discriminate.
Qed.

(** *** Streams through [renderSummary] *)

Lemma sumRun_cons (e : MatchEvent) (evs : list MatchEvent) (st : SumState) :
  sumRun (e :: evs) st = sumRun evs (sumCallback st e).
Proof. reflexivity. Qed.

Lemma sum_fresh (evs : list MatchEvent) :
  forall st : SumState,
    freshFrom (s_lastName st) evs ->
    Forall (fun e => hasJobURI (name e)) evs ->
    0 <= s_count st -> s_count st + len evs <= int_max ->
    s_count (sumRun evs st) = s_count st + len evs
    /\ countTok isFlush (s_bw (sumRun evs st))
       = (countTok isFlush (s_bw st) + dueCount (s_count st) (List.length evs))%nat.
Proof.
  induction evs as [| e evs IH]; intros st Hfresh Huri Hc Hmax.
  - unfold len. cbn [sumRun fold_left dueCount List.length]. split; lia.
  - destruct Hfresh as [Hnew Hfresh].
    inversion Huri as [| ? ? He Hrest]; subst.
    rewrite len_cons in Hmax. pose proof (len_nonneg evs) as Hlen.
    rewrite sumRun_cons, sumCallback_new by assumption.
    rewrite (wrap_small (s_count st + 1)) by (unfold int_max in *; lia).
    match goal with |- context [sumRun evs ?s] => destruct (IH s) as (Hcount & Hfl) end;
      cbn [s_count s_lastName s_bw]; try assumption; try lia.
    cbn [s_count s_lastName s_bw] in Hcount, Hfl.
    split; [rewrite Hcount, len_cons; lia |].
    rewrite Hfl, !countTok_app, countTok_flushTok. cbn [dueCount List.length].
    destruct (flushDue (s_count st)), (0 <? s_count st); cbn; lia.
Qed.

(** The first block of [runsFrom cur k evs] is the one of [cur]. *)
Lemma runsFrom_head (evs : list MatchEvent) :
  forall cur k, exists k' rest, runsFrom cur k evs = (cur, k') :: rest.
Proof.
  induction evs as [| e evs IH]; intros cur k; cbn [runsFrom].
  - now exists k, [].
  - destruct (String.eqb cur (name e)); [apply IH | now exists k, (runsFrom (name e) 1 evs)].
Qed.

Lemma rows_pending (cur : string) (k : nat) (evs : list MatchEvent) :
  flat_map rowToks (runsFrom cur k evs)
  = [TRowOpen; rowOf cur] ++ pendingToks (runsFrom cur k evs).
Proof.
  destruct (runsFrom_head evs cur k) as (k' & rest & ->). reflexivity.
Qed.

(** With a row open for [s_lastName st] that counts [k] hits so far,
    the rest of the stream completes that row and adds one row for each
    further block. *)
Lemma sum_blocks (evs : list MatchEvent) :
  forall (st : SumState) (k : nat),
    0 < s_count st -> currentLines st = Z.of_nat k ->
    Forall (fun e => hasJobURI (name e)) evs ->
    s_count st + len evs <= int_max -> Z.of_nat k + len evs <= int_max ->
    s_count (sumRun evs st)
    = s_count st + len (runsFrom (s_lastName st) k evs) - 1
    /\ withoutFlush (s_bw (sumRun evs st)) ++ [TCount (currentLines (sumRun evs st)); TRowClose]
       = withoutFlush (s_bw st) ++ pendingToks (runsFrom (s_lastName st) k evs).
Proof.
  induction evs as [| e evs IH]; intros st k Hopen Hk Huri Hmax Hkmax.
  - cbn [sumRun fold_left runsFrom pendingToks flat_map snd]. unfold len. cbn [List.length].
    rewrite Hk, app_nil_r. split; [lia | reflexivity].
  - inversion Huri as [| ? ? He Hrest]; subst.
    rewrite len_cons in Hmax, Hkmax. pose proof (len_nonneg evs) as Hlen.
    rewrite sumRun_cons. cbn [runsFrom].
    destruct (String.eqb_spec (s_lastName st) (name e)) as [Hsame | Hnew].
    + rewrite sumCallback_same by assumption.
      rewrite Hk, wrap_small by (unfold int_max in *; lia).
      match goal with |- context [sumRun evs ?s] => destruct (IH s (S k)) as (Hcount & Hout) end;
        cbn [s_count currentLines s_lastName s_bw]; try assumption; try lia.
      cbn [s_count currentLines s_lastName s_bw] in Hcount, Hout.
      split; [exact Hcount |].
      rewrite Hout, withoutFlush_app, withoutFlush_flushTok, app_nil_r. reflexivity.
    + rewrite sumCallback_new by assumption.
      assert (Hlt : (0 <? s_count st) = true) by (apply Z.ltb_lt; exact Hopen).
      rewrite Hlt. cbn [Z.add].
      rewrite (wrap_small (s_count st + 1)), (wrap_small 1) by (unfold int_max in *; lia).
      match goal with |- context [sumRun evs ?s] => destruct (IH s 1%nat) as (Hcount & Hout) end;
        cbn [s_count currentLines s_lastName s_bw]; try assumption; try lia.
      cbn [s_count currentLines s_lastName s_bw] in Hcount, Hout.
      split; [rewrite Hcount, len_cons; lia |].
      rewrite Hout, !withoutFlush_app, withoutFlush_flushTok.
      cbn [pendingToks snd]. rewrite rows_pending, Hk.
      cbn [app withoutFlush filter isFlush negb]. rewrite <- !app_assoc. reflexivity.
Qed.

(** *** Properties of [renderWithContext] *)

Lemma continue_counts (c : Z) (es : list MatchEvent) :
  countTok isHeader (flat_map (fun e => flushTok c ++ TSeparator :: hitToks e) es) = 0%nat
  /\ countTok isSeparator (flat_map (fun e => flushTok c ++ TSeparator :: hitToks e) es)
     = List.length es.
Proof.
  induction es as [| e es [IHh IHs]]; [split; reflexivity |].
  cbn [flat_map List.length].
  change (TSeparator :: hitToks e) with ([TSeparator] ++ hitToks e).
  rewrite !countTok_app, IHh, IHs.
  rewrite (countTok_flushTok_other isHeader), (countTok_flushTok_other isSeparator) by reflexivity.
  rewrite (hitToks_plain isHeader), (hitToks_plain isSeparator) by reflexivity.
  split; reflexivity.
Qed.

(** C6 (amended): a run of events of one source that starts a block,
    that is, whose source differs from the one tracked before it and
    resolves to a job URL, writes exactly one header, straight after
    it the lines of the first hit, and then one separator in front of
    each further hit: as many separators as there are further hits, and
    none before the first hit. *)
Theorem context_run_header_and_separators
    (st : CtxState) (e : MatchEvent) (es : list MatchEvent) :
  lastName st <> name e ->
  hasJobURI (name e) ->
  Forall (fun e' => name e' = name e) es ->
  let first := flushTok (count st) ++ closeTok (count st)
               ++ [TBlockOpen; headerOf (name e)] ++ hitToks e in
  let others := flat_map (fun e' => flushTok (wrap (count st + 1))
                                    ++ TSeparator :: hitToks e') es in
  exists st',
    executeGrep ctxCallback (e :: es) st = Done st'
    /\ bw st' = bw st ++ first ++ others
    /\ countTok isHeader (first ++ others) = 1%nat
    /\ countTok isSeparator first = 0%nat
    /\ countTok isSeparator others = List.length es.
Proof.
  intros Hnew Huri Hsame first others.
  cbn [executeGrep]. rewrite ctxCallback_new by assumption. cbn [bind].
  match goal with |- context [executeGrep _ es ?s] =>
    destruct (ctx_continue es s) as (st' & Hrun & _ & _ & Hbw) end.
  { cbn [lastName]. exact Hsame. }
  cbn [count bw] in Hbw.
  destruct (continue_counts (wrap (count st + 1)) es) as [Hh Hs].
  exists st'. split; [exact Hrun |]. split; [| split; [| split]].
  - rewrite Hbw. subst first others. now rewrite <- !app_assoc.
  - subst first others. rewrite !countTok_app, Hh.
    rewrite (countTok_flushTok_other isHeader), (hitToks_plain isHeader) by reflexivity.
    unfold closeTok. now destruct (0 <? count st).
  - subst first. rewrite !countTok_app.
    rewrite (countTok_flushTok_other isSeparator), (hitToks_plain isSeparator) by reflexivity.
    unfold closeTok. now destruct (0 <? count st).
  - exact Hs.
Qed.

Lemma NoDup_freshFrom (evs : list MatchEvent) :
  forall prev, NoDup (prev :: map name evs) -> freshFrom prev evs.
Proof.
  induction evs as [| e evs IH]; intros prev Hnd; cbn [freshFrom]; [exact I |].
  cbn [map] in Hnd. inversion Hnd as [| ? ? Hnotin Hnd']; subst. split.
  - intros ->. apply Hnotin. now left.
  - apply IH. exact Hnd'.
Qed.

Lemma blockOf_counts (evs : list MatchEvent) :
  countTok isBlockOpen (flat_map blockOf evs) = List.length evs
  /\ countTok isHeader (flat_map blockOf evs) = List.length evs.
Proof.
  induction evs as [| e evs [IHo IHh]]; [split; reflexivity |].
  cbn [flat_map List.length]. unfold blockOf at 1 3.
  rewrite !countTok_app, IHo, IHh.
  rewrite (hitToks_plain isBlockOpen), (hitToks_plain isHeader) by reflexivity.
  split; reflexivity.
Qed.

Lemma ctxFinish_out (err : option string) (st : CtxState) :
  r_count (ctxFinish err st) = count st
  /\ r_err (ctxFinish err st) = err
  /\ r_out (ctxFinish err st) = bw st ++ closeTok (count st) ++ [TFlush].
Proof.
  unfold ctxFinish, closeTok, ctxWrite.
  destruct (0 <? count st); cbn [r_count r_err r_out count bw];
    rewrite <- ?app_assoc; repeat split; reflexivity.
Qed.

(** C7 (amended): when the sources of the events are pairwise
    distinct, the first of them is not the empty string and each
    resolves to a job URL, [renderWithContext] opens exactly one block
    per event, each holding the lines of its event, and returns the
    number of events. *)
Theorem context_distinct_sources_one_block_each
    (evs : list MatchEvent) (err : option string) :
  NoDup (map name evs) ->
  hd_error (map name evs) <> Some ""%string ->
  Forall (fun e => hasJobURI (name e)) evs ->
  len evs <= int_max ->
  exists r,
    renderWithContext evs err = Done r
    /\ r_count r = len evs
    /\ r_err r = err
    /\ countTok isBlockOpen (r_out r) = List.length evs
    /\ countTok isHeader (r_out r) = List.length evs
    /\ withoutFlush (r_out r) = flat_map blockOf evs.
Proof.
  intros Hnd Hfirst Huri Hmax.
  assert (Hfresh : freshFrom (lastName ctxInit) evs).
  { cbn [ctxInit lastName]. destruct evs as [| e evs]; [exact I |].
    cbn [freshFrom]. split.
    - intros Heq. apply Hfirst. cbn [map hd_error]. now rewrite <- Heq.
    - apply NoDup_freshFrom. exact Hnd. }
  destruct (ctx_fresh evs ctxInit Hfresh Huri) as (st' & Hrun & Hcount & _ & Hout);
    [cbn; lia | cbn [ctxInit count]; lia |].
  cbn [ctxInit count bw] in Hcount, Hout.
  unfold renderWithContext. rewrite Hrun. cbn [bind].
  destruct (ctxFinish_out err st') as (Hc & He & Ho).
  assert (Hwf : withoutFlush (r_out (ctxFinish err st')) = flat_map blockOf evs).
  { rewrite Ho, !withoutFlush_app.
    assert (Hclose : withoutFlush (closeTok (count st')) = closeTok (count st')).
    { unfold closeTok. now destruct (0 <? count st'). }
    rewrite Hclose. cbn [withoutFlush filter isFlush negb]. rewrite app_nil_r.
    exact Hout. }
  destruct (blockOf_counts evs) as [Hopens Hheaders].
  exists (ctxFinish err st'). split; [reflexivity |].
  split; [rewrite Hc, Hcount; lia |]. split; [exact He |].
  split; [| split; [| exact Hwf]].
  - rewrite <- (countTok_withoutFlush isBlockOpen) by reflexivity. now rewrite Hwf.
  - rewrite <- (countTok_withoutFlush isHeader) by reflexivity. now rewrite Hwf.
Qed.

(** *** Properties of [renderSummary] *)

Lemma sumFinish_out (err : option string) (st : SumState) :
  r_count (sumFinish err st) = s_count st
  /\ r_err (sumFinish err st) = err
  /\ r_out (sumFinish err st)
     = s_bw st ++ (if 0 <? s_count st then [TCount (currentLines st); TRowClose] else [])
            ++ [TFlush].
Proof.
  unfold sumFinish, sumWrite.
  destruct (0 <? s_count st); cbn [r_count r_err r_out s_count s_bw currentLines];
    rewrite <- ?app_assoc; repeat split; reflexivity.
Qed.

(** The callback never looks at the lines of an event. *)
Lemma sumCallback_name_only (st : SumState) (e e' : MatchEvent) :
  name e = name e' -> sumCallback st e = sumCallback st e'.
Proof. intros Hname. unfold sumCallback. now rewrite Hname. Qed.

Lemma sumRun_name_only (evs : list MatchEvent) (f : MatchEvent -> MatchEvent) :
  (forall e, name (f e) = name e) ->
  forall st, sumRun (map f evs) st = sumRun evs st.
Proof.
  intros Hf. induction evs as [| e evs IH]; intros st; [reflexivity |].
  cbn [map]. rewrite !sumRun_cons, (sumCallback_name_only st (f e) e) by apply Hf.
  apply IH.
Qed.

(** C5 (amended): the hit counter of [renderSummary] moves by events,
    whatever lines they carry; when every source of the stream
    resolves to a job URL and the first source is not the empty string,
    one row is written per block, in order, with the number of events
    of the block as its count, and the number of blocks is returned;
    so events of [A], [A], [B] give two rows with counts 2 and 1. *)
Theorem summary_row_counts_events :
  (forall (evs : list MatchEvent) (err : option string),
      renderSummary (map (fun e => mkEvent (name e) ""%string [] 0) evs) err
      = renderSummary evs err)
  /\ (forall (evs : list MatchEvent) (err : option string),
         hd_error (map name evs) <> Some ""%string ->
         Forall (fun e => hasJobURI (name e)) evs ->
         len evs <= int_max ->
         r_count (renderSummary evs err) = len (blocks evs)
         /\ withoutFlush (r_out (renderSummary evs err))
            = TTableHead :: flat_map rowToks (blocks evs))
  /\ (forall (A B : string) (e1 e2 e3 : MatchEvent) (err : option string),
         name e1 = A -> name e2 = A -> name e3 = B ->
         A <> B -> A <> ""%string -> hasJobURI A -> hasJobURI B ->
         renderSummary [e1; e2; e3] err
         = mkRendered 2 err
             [TTableHead; TFlush;
              TRowOpen; rowOf A; TCount 2; TRowClose;
              TRowOpen; rowOf B; TCount 1; TRowClose; TFlush]).
Proof.
  split; [| split].
  - intros evs err. unfold renderSummary. now rewrite sumRun_name_only.
  - intros evs err Hfirst Huri Hmax. unfold renderSummary.
    destruct evs as [| e evs].
    + cbn. split; reflexivity.
    + inversion Huri as [| ? ? He Hrest]; subst.
      rewrite len_cons in Hmax. pose proof (len_nonneg evs) as Hlen.
      assert (Hnew : s_lastName sumInit <> name e).
      { cbn [sumInit s_lastName]. intros Heq. apply Hfirst. cbn [map hd_error].
        now rewrite <- Heq. }
      rewrite sumRun_cons, sumCallback_new by assumption.
      cbn [sumInit s_count currentLines s_bw s_log].
      change (0 <? 0) with false. cbn iota.
      change (wrap (0 + 1)) with 1.
      match goal with |- context [sumRun evs ?s] =>
        destruct (sum_blocks evs s 1%nat) as (Hcount & Hout);
          [cbn; lia | reflexivity | exact Hrest | cbn [s_count]; lia | lia |];
        destruct (sumFinish_out err (sumRun evs s)) as (Hc & _ & Ho)
      end.
      cbn [s_count s_lastName s_bw] in Hcount, Hout.
      cbn [blocks]. split.
      * rewrite Hc, Hcount. lia.
      * rewrite Ho.
        match goal with |- context [0 <? ?c] =>
          assert (Hpos : (0 <? c) = true)
            by (apply Z.ltb_lt; rewrite Hcount;
                destruct (runsFrom_head evs (name e) 1) as (k' & tl & ->);
                rewrite len_cons; pose proof (len_nonneg tl); lia)
        end.
        rewrite Hpos, !withoutFlush_app.
        cbn [withoutFlush filter isFlush negb] in Hout |- *.
        rewrite app_nil_r, Hout, rows_pending. reflexivity.
  - intros A B e1 e2 e3 err H1 H2 H3 HAB HA HuA HuB. unfold renderSummary.
    subst A B. rewrite !sumRun_cons.
    assert (Hinit : s_lastName sumInit <> name e1)
      by (cbn [sumInit s_lastName]; intros Heq; apply HA; now rewrite <- Heq).
    rewrite (sumCallback_new sumInit e1 Hinit HuA).
    cbn [sumInit s_count currentLines s_bw s_log].
    rewrite (sumCallback_same _ e2) by (cbn [s_lastName]; congruence).
    cbn [s_count currentLines s_lastName s_bw s_log].
    rewrite (sumCallback_new _ e3) by (cbn [s_lastName]; congruence || assumption).
    reflexivity.
Qed.

(** *** Flushing *)

Lemma flushDue_iff (c : Z) :
  flushDue c = true <-> c = 5 \/ exists k, c = k * 50.
Proof.
  unfold flushDue. rewrite orb_true_iff, !Z.eqb_eq.
  rewrite Z.rem_divide by lia. reflexivity.
Qed.

(** C4 (amended): both callbacks call [Flush] on entry, before they
    write anything, exactly when the number of blocks opened so far is
    5 or a multiple of 50 (0 included), and nowhere else; the
    renderers flush once more when the stream has ended.  For 120
    events that each start a block of their own the sink is flushed 5
    times: at the counts 0, 5, 50 and 100, and at the end. *)
Theorem flush_on_entry_when_due :
  (forall c : Z, flushDue c = true <-> c = 5 \/ exists k, c = k * 50)
  /\ (forall (st st' : CtxState) (e : MatchEvent),
         ctxCallback st e = Done st' ->
         exists rest,
           bw st' = bw st ++ flushTok (count st) ++ rest
           /\ countTok isFlush rest = 0%nat)
  /\ (forall (st : SumState) (e : MatchEvent),
         exists rest,
           s_bw (sumCallback st e) = s_bw st ++ flushTok (s_count st) ++ rest
           /\ countTok isFlush rest = 0%nat)
  /\ (forall (err : option string) (st : CtxState),
         r_out (ctxFinish err st) = bw st ++ closeTok (count st) ++ [TFlush])
  /\ (forall (err : option string) (st : SumState),
         r_out (sumFinish err st)
         = s_bw st ++ (if 0 <? s_count st then [TCount (currentLines st); TRowClose] else [])
                ++ [TFlush])
  /\ (forall (evs : list MatchEvent) (err : option string),
         List.length evs = 120%nat ->
         freshFrom ""%string evs ->
         Forall (fun e => hasJobURI (name e)) evs ->
         (exists r, renderWithContext evs err = Done r
                    /\ r_count r = 120
                    /\ countTok isFlush (r_out r) = 5%nat)
         /\ r_count (renderSummary evs err) = 120
         /\ countTok isFlush (r_out (renderSummary evs err)) = 5%nat).
Proof.
  split; [exact flushDue_iff |].
  split; [exact ctxCallback_flush |].
  split; [exact sumCallback_flush |].
  split; [intros err st; apply ctxFinish_out |].
  split; [intros err st; apply sumFinish_out |].
  intros evs err Hlen Hfresh Huri.
  assert (Hl : len evs = 120) by (unfold len; rewrite Hlen; reflexivity).
  split.
  - destruct (ctx_fresh evs ctxInit Hfresh Huri) as (st' & Hrun & Hcount & Hfl & _);
      [cbn; lia | cbn [ctxInit count]; rewrite Hl; unfold int_max; lia |].
    cbn [ctxInit count bw] in Hcount, Hfl. rewrite Hlen in Hfl. rewrite Hl in Hcount.
    unfold renderWithContext. rewrite Hrun. cbn [bind].
    destruct (ctxFinish_out err st') as (Hc & _ & Ho).
    exists (ctxFinish err st'). split; [reflexivity |]. split; [now rewrite Hc |].
    rewrite Ho, !countTok_app, Hfl, Hcount. reflexivity.
  - destruct (sum_fresh evs sumInit Hfresh Huri) as (Hcount & Hfl);
      [cbn; lia | cbn [sumInit s_count]; rewrite Hl; unfold int_max; lia |].
    cbn [sumInit s_count s_bw] in Hcount, Hfl. rewrite Hlen in Hfl. rewrite Hl in Hcount.
    unfold renderSummary.
    destruct (sumFinish_out err (sumRun evs sumInit)) as (Hc & _ & Ho).
    split; [now rewrite Hc |].
    rewrite Ho, !countTok_app, Hfl, Hcount. reflexivity.
Qed.

(** *** The empty source *)


End RendererFacts.

(** ** Query normalization *)

Lemma slen_pos (s : string) : s <> ""%string -> (0 <? slen s) = true.
Proof.
  intros Hs. destruct s as [| c s]; [congruence |].
  apply Z.ltb_lt. unfold slen. cbn [String.length]. lia.
Qed.

Lemma slen_empty (s : string) : (0 <? slen s) = false -> s = ""%string.
Proof.
  destruct s as [| c s]; [reflexivity |].
  intros H. apply Z.ltb_ge in H. unfold slen in H. cbn [String.length] in H. lia.
Qed.

Section NormalizationFacts.

Variable Regexp : Type.
Variable regexpCompile : string -> string + Regexp.
Variable ParseDuration : string -> string + Z.
Variable Atoi : string -> string + Z.
Variable serverMaxAge : Z.

Local Abbreviation parseRequest :=
  (parseRequest Regexp regexpCompile ParseDuration Atoi serverMaxAge).
Local Abbreviation parseMaxAge := (parseMaxAge ParseDuration).
Local Abbreviation parseContext := (parseContext Atoi).
Local Abbreviation parseJob := (parseJob Regexp regexpCompile).

(** A request passes only when each of its four checks passes. *)
Lemma parseRequest_passes (req : Request) (mode : string) (index : Index Regexp) :
  parseRequest req mode = inr index ->
  formError req = None
  /\ parseSearchType (form_type req) = inr (SearchType index)
  /\ parseJob (form_name req) mode = inr (Job index)
  /\ (exists d, parseMaxAge (form_maxAge req) = inr d)
  /\ parseContext (form_context req) mode = inr (Context index).
Proof.
  unfold parseRequest.
  destruct (formError req); [discriminate |].
  destruct (parseSearchType (form_type req)) as [e | ty]; [discriminate |].
  destruct (parseJob (form_name req) mode) as [e | job]; [discriminate |].
  destruct (parseMaxAge (form_maxAge req)) as [e | d]; [discriminate |].
  destruct (parseContext (form_context req) mode) as [e | c]; [discriminate |].
  cbn [andThen]. intros [= <-]. cbn [SearchType Job Context].
  repeat split; try reflexivity. now exists d.
Qed.

Lemma parseRequest_fails_when (req : Request) (mode : string) :
  (exists e, parseSearchType (form_type req) = inl e)
  \/ (exists e, parseMaxAge (form_maxAge req) = inl e)
  \/ (exists e, parseContext (form_context req) mode = inl e) ->
  exists e, parseRequest req mode = inl e.
Proof.
  intros Hbad.
  destruct (parseRequest req mode) as [e | index] eqn:Hparse; [now exists e |].
  apply parseRequest_passes in Hparse.
  destruct Hparse as (_ & Hty & _ & [d Hage] & Hctx).
  destruct Hbad as [[e He] | [[e He] | [e He]]]; congruence.
Qed.

Lemma parseContext_range (context mode : string) (n : Z) :
  parseContext context mode = inr n -> -1 <= n <= 15.
Proof.
  unfold parseContext.
  destruct (0 <? slen context).
  - destruct (Atoi context) as [msg | num]; [discriminate |].
    destruct (num <? -1) eqn:Hlo; [discriminate |].
    destruct (15 <? num) eqn:Hhi; [discriminate |].
    cbn [orb]. intros [= <-].
    apply Z.ltb_ge in Hlo, Hhi. lia.
  - destruct (String.eqb mode "text"); intros [= <-]; lia.
Qed.

(** *** The renderer choice of [handleIndex] *)

Variable HumanDuration : Z -> string.
Variable MetadataFor : string -> Result * bool.
Variable generator : Index Regexp -> list MatchEvent * option string.

Local Abbreviation handleIndex :=
  (handleIndex Regexp regexpCompile ParseDuration Atoi serverMaxAge
               HumanDuration MetadataFor generator).

(** C9: for a descriptor that [parseRequest] accepts, the context is
    -1 or at least 0, and when a search is made that alone settles the
    renderer: -1 gives the page of [renderSummary] and nothing of
    [renderWithContext], a context from 0 on the page of
    [renderWithContext] and nothing of [renderSummary]. *)
Theorem context_alone_selects_renderer
    (req : Request) (start : Z) (index : Index Regexp) :
  parseRequest req "text" = inr index ->
  (Context index = -1 \/ 0 <= Context index <= 15)
  /\ (slen (hd ""%string (Search (searched index))) <> 0 ->
      (Context index = -1 ->
       handleIndex req start
       = SearchPage SummaryRenderer
           (Done (renderSummary HumanDuration MetadataFor start
                    (fst (generator (searched index))) (snd (generator (searched index))))))
      /\ (0 <= Context index ->
          handleIndex req start
          = SearchPage ContextRenderer
              (renderWithContext HumanDuration MetadataFor start
                 (fst (generator (searched index))) (snd (generator (searched index)))))).
Proof.
  intros Hparse.
  assert (Hrange : -1 <= Context index <= 15).
  { apply parseRequest_passes in Hparse.
    destruct Hparse as (_ & _ & _ & _ & Hctx).
    exact (parseContext_range _ _ _ Hctx). }
  split; [lia |]. intros Hsearch.
  assert (Hctx : Context (searched index) = Context index).
  { unfold searched. now destruct (len (Search index) =? 0). }
  unfold handleIndex. rewrite Hparse. fold (searched index).
  apply Z.eqb_neq in Hsearch. rewrite Hsearch.
  destruct (generator (searched index)) as [events err]. cbn [fst snd].
  rewrite Hctx. split; intros Hc.
  - rewrite Hc. reflexivity.
  - apply Z.leb_le in Hc. now rewrite Hc.
Qed.

End NormalizationFacts.

(** ** Blocks cover the stream *)

Lemma runsFrom_cover (evs : list MatchEvent) :
  forall cur k,
    flat_map (fun b => repeat (fst b) (snd b)) (runsFrom cur k evs)
    = repeat cur k ++ map name evs.
Proof.
  induction evs as [| e evs IH]; intros cur k; cbn [runsFrom flat_map map fst snd].
  - reflexivity.
  - destruct (String.eqb_spec cur (name e)) as [<- | Hnew].
    + rewrite IH. cbn [repeat]. rewrite repeat_cons, <- app_assoc. reflexivity.
    + cbn [flat_map fst snd]. rewrite IH. reflexivity.
Qed.

Lemma blocks_cover (evs : list MatchEvent) :
  flat_map (fun b => repeat (fst b) (snd b)) (blocks evs) = map name evs.
Proof.
  destruct evs as [| e evs]; [reflexivity |].
  cbn [blocks]. rewrite runsFrom_cover. reflexivity.
Qed.

(** ** The sample inputs *)

Lemma resolveAll_hasJobURI (evs : list MatchEvent) :
  Forall (fun e => hasJobURI resolveAll (name e)) evs.
Proof. apply Forall_forall. intros e _. unfold hasJobURI. cbn. discriminate. Qed.

Lemma distinctHits_length (n : nat) : forall nm, List.length (distinctHits n nm) = n.
Proof.
  induction n as [| n IH]; intros nm; cbn [distinctHits List.length]; [reflexivity |].
  now rewrite IH.
Qed.

Lemma distinctHits_fresh (n : nat) :
  forall prev nm,
    (String.length prev < String.length nm)%nat -> freshFrom prev (distinctHits n nm).
Proof.
  induction n as [| n IH]; intros prev nm Hlt; cbn [distinctHits freshFrom]; [exact I |].
  split.
  - cbn [hit name]. intros ->. lia.
  - apply IH. cbn [hit name String.length]. lia.
Qed.

Local Open Scope string_scope.

(** ** Where the code departs from the claims *)

(** C1: a source that the resolver misses has the zero [Result], whose
    [JobURI] is nil; [renderWithContext] calls [String] on it while it
    formats the header, so the render stops with a panic after the
    opening tag of the block, and neither the header nor a result is
    produced.  [renderSummary] tests the pointer first and returns. *)
Theorem context_metadata_miss_panics
    (s : string) (ms : list string) (ml : Z) (rest : list MatchEvent) (err : option string) :
  resolveButX "X" = (zeroResult, false)
  /\ renderWithContext sampleDuration resolveButX 0 (mkEvent "X" s ms ml :: rest) err
     = Panicked nil_dereference
  /\ renderSummary sampleDuration resolveButX 0 [mkEvent "X" s ms ml] err
     = mkRendered 0 err [TTableHead; TFlush; TFlush].
Proof.
  split; [reflexivity |]. split; [| reflexivity].
  unfold renderWithContext. cbn [executeGrep].
  rewrite ctxCallback_nil_uri; [reflexivity | cbn; discriminate | reflexivity].
Qed.

(** C2: the first event of a source without a job URL returns before
    the counter, but the further events of that source take the branch of
    the open block and are counted: they are added to the row that was
    open before (here the row of A shows 2 hits for its single event), or,
    when no row was open yet, to the first row that follows. *)
Theorem summary_skipped_block_leaks_hits :
  blocks [hit "A" ["x"]; hit "X" ["x"]; hit "X" ["x"]; hit "B" ["x"]]%string
  = [("A", 1); ("X", 2); ("B", 1)]%string%nat
  /\ renderSummary sampleDuration resolveButX 0
       [hit "A" ["x"]; hit "X" ["x"]; hit "X" ["x"]; hit "B" ["x"]]%string None
     = mkRendered 2 None
         [TTableHead; TFlush;
          TRowOpen; TRow "junit" "https://ci.example/A" "A" 7 ""; TCount 2; TRowClose;
          TRowOpen; TRow "junit" "https://ci.example/B" "B" 7 ""; TCount 1; TRowClose;
          TFlush]
  /\ renderSummary sampleDuration resolveButX 0
       [hit "X" ["x"]; hit "X" ["x"]; hit "A" ["x"]]%string None
     = mkRendered 1 None
         [TTableHead; TFlush; TFlush; TFlush;
          TRowOpen; TRow "junit" "https://ci.example/A" "A" 7 ""; TCount 2; TRowClose;
          TFlush].
Proof. repeat split; reflexivity. Qed.

(** C3: the first loop drops every line that is empty once its
    trailing spaces are cut, wherever it stands in the hit, so an
    interior blank line is lost as well and the loop for the trailing
    lines finds nothing to do: [hitLines] is a filter. *)
Theorem context_drops_interior_blank_lines :
  hitLines ["a"; ""; "b"]%string = ["a"; "b"]%string
  /\ renderWithContext sampleDuration resolveAll 0 [hit "A" ["a"; ""; "b"]]%string None
     = Done (mkRendered 1 None
               [TFlush; TBlockOpen;
                THeader "junit" "pull" "https://ci.example/A" "A" 7 "";
                TLine "a"; TLine "b"; TBlockClose; TFlush])
  /\ (forall ms : list string, hitLines ms = filter nonblank (map TrimRight ms))
  /\ (forall (ms : list string) (l : string), In l (hitLines ms) -> l <> ""%string).
Proof.
  split; [reflexivity |]. split; [reflexivity |]. split; [exact hitLines_filter |].
  intros ms l Hin. rewrite hitLines_filter in Hin.
  apply filter_In in Hin. destruct Hin as [_ Hnb]. intros ->. discriminate.
Qed.

(** ** Inputs on which the claims, as they are stated, fail *)

(** C4: with two sources the only flush before the end of the stream
    comes ahead of the first block, and nothing is flushed once that
    block is open; and with a fifth block of several hits every further
    hit of it is flushed on its own. *)
Lemma flush_cadence_counterexample :
  renderWithContext sampleDuration resolveAll 0 [hit "A" ["x"]; hit "B" ["y"]]%string None
  = Done (mkRendered 2 None
            [TFlush;
             TBlockOpen; THeader "junit" "pull" "https://ci.example/A" "A" 7 ""; TLine "x";
             TBlockClose;
             TBlockOpen; THeader "junit" "pull" "https://ci.example/B" "B" 7 ""; TLine "y";
             TBlockClose; TFlush])
  /\ match renderWithContext sampleDuration resolveAll 0
             (distinctHits 5 "s" ++ [hit "aaaas" ["x"]; hit "aaaas" ["y"]; hit "aaaas" ["z"]])%list
             None with
     | Done r =>
         r_count r = 5
         /\ skipn 19 (r_out r)
            = [TLine "failed";
               TFlush; TSeparator; TLine "x";
               TFlush; TSeparator; TLine "y";
               TFlush; TSeparator; TLine "z";
               TBlockClose; TFlush]
     | Panicked _ => False
     end.
Proof.
  split; [reflexivity |].
  vm_compute. split; reflexivity.
Qed.

(** C5: a first event with the empty source opens no row and is
    counted all the same, so the row of the block that follows shows one
    hit more than the block has events. *)
Lemma summary_row_count_counterexample :
  blocks [hit "" ["x"]; hit "A" ["x"]]%string = [("", 1); ("A", 1)]%string%nat
  /\ hasJobURI resolveAll "" /\ hasJobURI resolveAll "A"
  /\ renderSummary sampleDuration resolveAll 0 [hit "" ["x"]; hit "A" ["x"]]%string None
     = mkRendered 1 None
         [TTableHead; TFlush; TFlush;
          TRowOpen; TRow "junit" "https://ci.example/A" "A" 7 ""; TCount 2; TRowClose;
          TFlush].
Proof.
  split; [reflexivity |]. split; [cbn; discriminate |]. split; [cbn; discriminate |].
  reflexivity.
Qed.

(** C6: a run of two events with the empty source at the head of the
    stream gets no header at all, and a separator is written before its
    first hit. *)
Lemma context_run_counterexample :
  renderWithContext sampleDuration resolveAll 0 [hit "" ["a"]; hit "" ["b"]]%string None
  = Done (mkRendered 0 None
            [TFlush; TSeparator; TLine "a"; TFlush; TSeparator; TLine "b"; TFlush])
  /\ countTok isHeader
       [TFlush; TSeparator; TLine "a"; TFlush; TSeparator; TLine "b"; TFlush] <> 1%nat
  /\ hd_error (withoutFlush
                 [TFlush; TSeparator; TLine "a"; TFlush; TSeparator; TLine "b"; TFlush])
     = Some TSeparator.
Proof.
  split; [vm_compute; reflexivity |]. split; [vm_compute; discriminate | reflexivity].
Qed.

(** C7: a single event with the empty source and one line: the
    sources are pairwise distinct and the hit has a line, yet no block is
    opened and the count returned is 0. *)
Lemma context_distinct_counterexample :
  NoDup (map name [hit "" ["x"]]%string)
  /\ Forall (fun e => hitLines (matches e) <> []) [hit "" ["x"]]%string
  /\ renderWithContext sampleDuration resolveAll 0 [hit "" ["x"]]%string None
     = Done (mkRendered 0 None [TFlush; TSeparator; TLine "x"; TFlush])
  /\ 0 <> len [hit "" ["x"]]%string.
Proof.
  split; [repeat constructor; intros [] |].
  split; [repeat constructor; discriminate |].
  split; [vm_compute; reflexivity | vm_compute; discriminate].
Qed.

(** ** The theorems at sample inputs *)

(** C4 at 120 events of distinct sources. *)
Lemma flush_on_entry_when_due_witness :
  List.length (distinctHits 120 "s") = 120%nat
  /\ freshFrom "" (distinctHits 120 "s")
  /\ Forall (fun e => hasJobURI resolveAll (name e)) (distinctHits 120 "s")
  /\ (exists r, renderWithContext sampleDuration resolveAll 0 (distinctHits 120 "s") None = Done r
                /\ r_count r = 120
                /\ countTok isFlush (r_out r) = 5%nat)
  /\ r_count (renderSummary sampleDuration resolveAll 0 (distinctHits 120 "s") None) = 120
  /\ countTok isFlush (r_out (renderSummary sampleDuration resolveAll 0 (distinctHits 120 "s") None))
     = 5%nat.
Proof.
  pose proof (distinctHits_length 120 "s") as Hlen.
  assert (Hfresh : freshFrom "" (distinctHits 120 "s"))
    by (apply distinctHits_fresh; cbn; lia).
  pose proof (resolveAll_hasJobURI (distinctHits 120 "s")) as Huri.
  split; [exact Hlen |]. split; [exact Hfresh |]. split; [exact Huri |].
  exact (proj2 (proj2 (proj2 (proj2 (proj2
           (flush_on_entry_when_due sampleDuration resolveAll 0)))))
           (distinctHits 120 "s") None Hlen Hfresh Huri).
Defined.

(** C5 at the events of A, A and B. *)
Lemma summary_row_counts_events_witness :
  hd_error (map name [hit "A" ["x"]; hit "A" ["y"; "z"]; hit "B" []]) <> Some ""
  /\ Forall (fun e => hasJobURI resolveAll (name e)) [hit "A" ["x"]; hit "A" ["y"; "z"]; hit "B" []]
  /\ len [hit "A" ["x"]; hit "A" ["y"; "z"]; hit "B" []] <= int_max
  /\ r_count (renderSummary sampleDuration resolveAll 0
                [hit "A" ["x"]; hit "A" ["y"; "z"]; hit "B" []] None) = 2
  /\ withoutFlush (r_out (renderSummary sampleDuration resolveAll 0
                            [hit "A" ["x"]; hit "A" ["y"; "z"]; hit "B" []] None))
     = [TTableHead;
        TRowOpen; TRow "junit" "https://ci.example/A" "A" 7 ""; TCount 2; TRowClose;
        TRowOpen; TRow "junit" "https://ci.example/B" "B" 7 ""; TCount 1; TRowClose].
Proof.
  assert (Hfirst : hd_error (map name [hit "A" ["x"]; hit "A" ["y"; "z"]; hit "B" []]) <> Some "")
    by (cbn; discriminate).
  pose proof (resolveAll_hasJobURI [hit "A" ["x"]; hit "A" ["y"; "z"]; hit "B" []]) as Huri.
  assert (Hmax : len [hit "A" ["x"]; hit "A" ["y"; "z"]; hit "B" []] <= int_max)
    by (vm_compute; discriminate).
  split; [exact Hfirst |]. split; [exact Huri |]. split; [exact Hmax |].
  exact (proj1 (proj2 (summary_row_counts_events sampleDuration resolveAll 0))
           [hit "A" ["x"]; hit "A" ["y"; "z"]; hit "B" []] None Hfirst Huri Hmax).
Defined.

(** C6 at a block of three hits at the head of a stream. *)
Lemma context_run_header_and_separators_witness :
  lastName ctxInit <> name (hit "A" ["x"])
  /\ hasJobURI resolveAll (name (hit "A" ["x"]))
  /\ Forall (fun e' => name e' = name (hit "A" ["x"])) [hit "A" ["y"]; hit "A" ["z"]]
  /\ exists st',
       executeGrep (ctxCallback sampleDuration resolveAll 0)
         [hit "A" ["x"]; hit "A" ["y"]; hit "A" ["z"]] ctxInit = Done st'
       /\ bw st' = [TFlush; TBlockOpen;
                    THeader "junit" "pull" "https://ci.example/A" "A" 7 "";
                    TLine "x"; TSeparator; TLine "y"; TSeparator; TLine "z"].
Proof.
  assert (Hnew : lastName ctxInit <> name (hit "A" ["x"])) by (cbn; discriminate).
  assert (Huri : hasJobURI resolveAll (name (hit "A" ["x"]))) by (cbn; discriminate).
  assert (Hsame : Forall (fun e' => name e' = name (hit "A" ["x"])) [hit "A" ["y"]; hit "A" ["z"]])
    by (repeat constructor).
  split; [exact Hnew |]. split; [exact Huri |]. split; [exact Hsame |].
  destruct (context_run_header_and_separators sampleDuration resolveAll 0
              ctxInit (hit "A" ["x"]) [hit "A" ["y"]; hit "A" ["z"]] Hnew Huri Hsame)
    as (st' & Hrun & Hbw & _).
  exists st'. split; [exact Hrun | exact Hbw].
Defined.

(** C7 at two events of the sources A and B. *)
Lemma context_distinct_sources_one_block_each_witness :
  NoDup (map name [hit "A" ["x"]; hit "B" ["y"]])
  /\ hd_error (map name [hit "A" ["x"]; hit "B" ["y"]]) <> Some ""
  /\ Forall (fun e => hasJobURI resolveAll (name e)) [hit "A" ["x"]; hit "B" ["y"]]
  /\ len [hit "A" ["x"]; hit "B" ["y"]] <= int_max
  /\ exists r,
       renderWithContext sampleDuration resolveAll 0 [hit "A" ["x"]; hit "B" ["y"]] None = Done r
       /\ r_count r = 2
       /\ countTok isHeader (r_out r) = 2%nat.
Proof.
  assert (Hnd : NoDup (map name [hit "A" ["x"]; hit "B" ["y"]])).
  { cbn. repeat constructor; cbn; intuition discriminate. }
  assert (Hfirst : hd_error (map name [hit "A" ["x"]; hit "B" ["y"]]) <> Some "")
    by (cbn; discriminate).
  pose proof (resolveAll_hasJobURI [hit "A" ["x"]; hit "B" ["y"]]) as Huri.
  assert (Hmax : len [hit "A" ["x"]; hit "B" ["y"]] <= int_max) by (vm_compute; discriminate).
  split; [exact Hnd |]. split; [exact Hfirst |]. split; [exact Huri |]. split; [exact Hmax |].
  destruct (context_distinct_sources_one_block_each sampleDuration resolveAll 0
              [hit "A" ["x"]; hit "B" ["y"]] None Hnd Hfirst Huri Hmax)
    as (r & Hrun & Hcount & _ & _ & Hheaders & _).
  exists r. split; [exact Hrun |]. split; [exact Hcount | exact Hheaders].
Defined.

(** C9 at a request for the summary view. *)
Lemma context_alone_selects_renderer_witness :
  parseRequest string sampleCompile sampleParseDuration sampleAtoi 0
    (sampleRequest "junit" "6h" "-1") "text"
  = inr (mkIndex ["timeout"] "junit" None (6 * Hour) (-1))
  /\ handleIndex string sampleCompile sampleParseDuration sampleAtoi 0
       sampleDuration resolveAll (sampleGenerator [hit "A" ["x"]])
       (sampleRequest "junit" "6h" "-1") 0
     = SearchPage SummaryRenderer
         (Done (renderSummary sampleDuration resolveAll 0 [hit "A" ["x"]] None)).
Proof.
  assert (Hparse : parseRequest string sampleCompile sampleParseDuration sampleAtoi 0
                     (sampleRequest "junit" "6h" "-1") "text"
                   = inr (mkIndex ["timeout"] "junit" None (6 * Hour) (-1)))
    by reflexivity.
  split; [exact Hparse |].
  refine (proj1 (proj2 (context_alone_selects_renderer string sampleCompile sampleParseDuration
                   sampleAtoi 0 sampleDuration resolveAll (sampleGenerator [hit "A" ["x"]])
                   (sampleRequest "junit" "6h" "-1") 0 _ Hparse) _) _).
  - cbn. discriminate.
  - reflexivity.
Defined.

Local Close Scope string_scope.

(** ** Projections of the output *)

Lemma linesOf_app (a b : list Tok) : linesOf (a ++ b) = linesOf a ++ linesOf b.
Proof.
  induction a as [| t a IH]; [reflexivity |].
  destruct t; cbn [app linesOf]; rewrite IH; reflexivity.
Qed.

Lemma noticesOf_app (a b : list Tok) : noticesOf (a ++ b) = noticesOf a ++ noticesOf b.
Proof.
  induction a as [| t a IH]; [reflexivity |].
  destruct t; cbn [app noticesOf]; rewrite IH; reflexivity.
Qed.

Lemma countsOf_app (a b : list Tok) : countsOf (a ++ b) = countsOf a ++ countsOf b.
Proof.
  induction a as [| t a IH]; [reflexivity |].
  destruct t; cbn [app countsOf]; rewrite IH; reflexivity.
Qed.

Lemma sumZ_app (a b : list Z) : sumZ (a ++ b) = sumZ a + sumZ b.
Proof.
  unfold sumZ. induction a as [| x a IH]; cbn [app fold_right]; lia.
Qed.

Lemma filter_hitToks (p : Tok -> bool) (e : MatchEvent) :
  (forall l, p (TLine l) = false) -> (forall n, p (TMoreLines n) = false) ->
  filter p (hitToks e) = [].
Proof.
  intros Hl Hm. apply length_zero_iff_nil. exact (hitToks_plain p e Hl Hm).
Qed.

Lemma filter_flushTok (p : Tok -> bool) (c : Z) :
  p TFlush = false -> filter p (flushTok c) = [].
Proof.
  intros Hp. unfold flushTok. destruct (flushDue c); cbn [filter]; [now rewrite Hp | reflexivity].
Qed.

Lemma linesOf_flushTok (c : Z) : linesOf (flushTok c) = [].
Proof. unfold flushTok. now destruct (flushDue c). Qed.

Lemma noticesOf_flushTok (c : Z) : noticesOf (flushTok c) = [].
Proof. unfold flushTok. now destruct (flushDue c). Qed.

Lemma countsOf_flushTok (c : Z) : countsOf (flushTok c) = [].
Proof. unfold flushTok. now destruct (flushDue c). Qed.

Lemma linesOf_closeTok (c : Z) : linesOf (closeTok c) = [].
Proof. unfold closeTok. now destruct (0 <? c). Qed.

Lemma noticesOf_closeTok (c : Z) : noticesOf (closeTok c) = [].
Proof. unfold closeTok. now destruct (0 <? c). Qed.

Lemma linesOf_hitToks (e : MatchEvent) : linesOf (hitToks e) = hitLines (matches e).
Proof.
  unfold hitToks. rewrite linesOf_app.
  assert (Hmore : linesOf (if 0 <? moreLines e then [TMoreLines (moreLines e)] else []) = [])
    by now destruct (0 <? moreLines e).
  rewrite Hmore, app_nil_r.
  induction (hitLines (matches e)) as [| l ls IH]; [reflexivity |].
  cbn [map linesOf]. now rewrite IH.
Qed.

Lemma noticesOf_hitToks (e : MatchEvent) :
  noticesOf (hitToks e) = if 0 <? moreLines e then [moreLines e] else [].
Proof.
  unfold hitToks. rewrite noticesOf_app.
  assert (Hlines : forall ls, noticesOf (map TLine ls) = [])
    by (induction ls as [| l ls IH]; [reflexivity | exact IH]).
  rewrite Hlines. now destruct (0 <? moreLines e).
Qed.

Lemma openers_length (evs : list MatchEvent) :
  forall prev, (List.length (openers prev evs) <= List.length evs)%nat.
Proof.
  induction evs as [| e evs IH]; intros prev; cbn [openers List.length]; [lia |].
  destruct (String.eqb prev (name e)); cbn [List.length].
  - specialize (IH prev). lia.
  - specialize (IH (name e)). lia.
Qed.

Lemma runsFrom_openers (evs : list MatchEvent) :
  forall cur k, map fst (runsFrom cur k evs) = cur :: openers cur evs.
Proof.
  induction evs as [| e evs IH]; intros cur k; cbn [runsFrom openers map fst]; [reflexivity |].
  destruct (String.eqb cur (name e)); [apply IH |].
  cbn [map fst]. now rewrite IH.
Qed.

(** When the first source is not the empty string, the changes of the
    tracked source are the blocks of the stream. *)
Lemma openers_blocks (evs : list MatchEvent) :
  hd_error (map name evs) <> Some EmptyString ->
  openers EmptyString evs = map fst (blocks evs).
Proof.
  destruct evs as [| e evs]; [reflexivity |].
  cbn [map hd_error blocks openers]. intros Hfirst.
  destruct (String.eqb_spec EmptyString (name e)) as [Heq | _];
    [exfalso; apply Hfirst; now rewrite <- Heq |].
  now rewrite runsFrom_openers.
Qed.

Section RendererStreams.

Variable HumanDuration : Z -> string.
Variable MetadataFor : string -> Result * bool.
Variable start : Z.

Local Abbreviation ctxCallback := (ctxCallback HumanDuration MetadataFor start).
Local Abbreviation sumCallback := (sumCallback HumanDuration MetadataFor start).
Local Abbreviation sumRun := (sumRun HumanDuration MetadataFor start).
Local Abbreviation renderWithContext := (renderWithContext HumanDuration MetadataFor start).
Local Abbreviation renderSummary := (renderSummary HumanDuration MetadataFor start).
Local Abbreviation hasJobURI := (hasJobURI MetadataFor).
Local Abbreviation hasJobURIb := (hasJobURIb MetadataFor).
Local Abbreviation headerOf := (headerOf HumanDuration MetadataFor start).
Local Abbreviation rowOf := (rowOf HumanDuration MetadataFor start).

Lemma hasJobURIb_true (n : string) : hasJobURIb n = true <-> hasJobURI n.
Proof.
  unfold hasJobURIb, hasJobURI.
  destruct (JobURI (fst (MetadataFor n))); split; congruence.
Qed.

(** *** One call of the callback of [renderWithContext] *)

Lemma ctxCallback_done (st st' : CtxState) (e : MatchEvent) :
  ctxCallback st e = Done st' ->
  lastName st' = name e
  /\ count st' = (if String.eqb (lastName st) (name e) then count st else wrap (count st + 1))
  /\ bw st' = bw st ++ flushTok (count st)
                   ++ (if String.eqb (lastName st) (name e) then [TSeparator]
                       else closeTok (count st) ++ [TBlockOpen; headerOf (name e)])
                   ++ hitToks e
  /\ (lastName st <> name e -> hasJobURI (name e)).
Proof.
  destruct (String.eqb_spec (lastName st) (name e)) as [Hsame | Hnew].
  - rewrite ctxCallback_same by assumption. intros [= <-]. cbn [lastName count bw].
    repeat split; try assumption; try reflexivity. contradiction.
  - destruct (JobURI (fst (MetadataFor (name e)))) as [u |] eqn:Hu.
    + assert (Huri : hasJobURI (name e)) by (unfold hasJobURI; congruence).
      rewrite ctxCallback_new by assumption. intros [= <-]. cbn [lastName count bw].
      split; [reflexivity |]. split; [reflexivity |].
      split; [now rewrite <- !app_assoc | intros _; exact Huri].
    + rewrite ctxCallback_nil_uri by assumption. discriminate.
Qed.

(** A stream gets through [renderWithContext] when every source that
    starts a block has a job URL. *)
Lemma ctx_returns (evs : list MatchEvent) :
  forall st : CtxState,
    Forall hasJobURI (openers (lastName st) evs) ->
    exists st', executeGrep ctxCallback evs st = Done st'.
Proof.
  induction evs as [| e evs IH]; intros st Huri; cbn [executeGrep]; [now exists st |].
  cbn [openers] in Huri.
  destruct (String.eqb_spec (lastName st) (name e)) as [Hsame | Hnew].
  - rewrite ctxCallback_same by assumption. cbn [bind]. apply IH. exact Huri.
  - inversion Huri as [| ? ? He Hrest]; subst.
    rewrite ctxCallback_new by assumption. cbn [bind]. apply IH. exact Hrest.
Qed.

(** What a stream that got through has written, whatever its
    grouping. *)
Lemma ctx_written (evs : list MatchEvent) :
  forall st st' : CtxState,
    executeGrep ctxCallback evs st = Done st' ->
    Forall hasJobURI (openers (lastName st) evs)
    /\ filter isHeader (bw st')
       = filter isHeader (bw st) ++ map headerOf (openers (lastName st) evs)
    /\ countTok isBlockOpen (bw st')
       = (countTok isBlockOpen (bw st) + List.length (openers (lastName st) evs))%nat
    /\ (countTok isSeparator (bw st') + List.length (openers (lastName st) evs))%nat
       = (countTok isSeparator (bw st) + List.length evs)%nat
    /\ linesOf (bw st') = linesOf (bw st) ++ flat_map (fun e => hitLines (matches e)) evs
    /\ noticesOf (bw st') = noticesOf (bw st) ++ elided evs.
Proof.
  induction evs as [| e evs IH]; intros st st' Hrun; cbn [executeGrep] in Hrun.
  - injection Hrun as <-. cbn [openers map flat_map List.length]. unfold elided. cbn [map filter].
    rewrite !app_nil_r. repeat split; try lia. constructor.
  - destruct (ctxCallback st e) as [st1 | msg] eqn:Hcb; [| discriminate].
    cbn [bind] in Hrun.
    destruct (ctxCallback_done _ _ _ Hcb) as (Hname & _ & Hbw & Huri).
    destruct (IH _ _ Hrun) as (IHuri & IHh & IHo & IHs & IHl & IHn).
    rewrite Hname in IHuri, IHh, IHo, IHs.
    rewrite Hbw in IHh, IHo, IHs, IHl, IHn.
    rewrite !filter_app, (filter_flushTok isHeader), (filter_hitToks isHeader) in IHh
      by reflexivity.
    rewrite !countTok_app, (countTok_flushTok_other isBlockOpen),
      (hitToks_plain isBlockOpen) in IHo by reflexivity.
    rewrite !countTok_app, (countTok_flushTok_other isSeparator),
      (hitToks_plain isSeparator) in IHs by reflexivity.
    rewrite !linesOf_app, linesOf_flushTok, linesOf_hitToks in IHl.
    rewrite !noticesOf_app, noticesOf_flushTok, noticesOf_hitToks in IHn.
    unfold elided. cbn [openers flat_map map filter List.length].
    fold (elided evs).
    destruct (String.eqb_spec (lastName st) (name e)) as [Hsame | Hnew].
    + rewrite <- Hsame in IHuri, IHh, IHo, IHs.
      cbn [filter isHeader app] in IHh.
      change (countTok isBlockOpen [TSeparator]) with 0%nat in IHo.
      change (countTok isSeparator [TSeparator]) with 1%nat in IHs.
      cbn [linesOf app] in IHl. cbn [noticesOf app] in IHn.
      rewrite app_nil_r in IHh.
      split; [exact IHuri |]. split; [exact IHh |]. split; [lia |]. split; [lia |].
      split.
      * rewrite IHl, <- app_assoc. reflexivity.
      * rewrite IHn. destruct (0 <? moreLines e); now rewrite <- app_assoc.
    + assert (Hch : filter isHeader (closeTok (count st)) = [])
        by (unfold closeTok; now destruct (0 <? count st)).
      assert (Hco : countTok isBlockOpen (closeTok (count st)) = 0%nat)
        by (unfold closeTok; now destruct (0 <? count st)).
      assert (Hcs : countTok isSeparator (closeTok (count st)) = 0%nat)
        by (unfold closeTok; now destruct (0 <? count st)).
      rewrite filter_app, Hch in IHh. rewrite countTok_app, Hco in IHo.
      rewrite countTok_app, Hcs in IHs.
      rewrite linesOf_app, linesOf_closeTok in IHl.
      rewrite noticesOf_app, noticesOf_closeTok in IHn.
      cbn [filter isHeader headerOf app] in IHh.
      change (countTok isBlockOpen [TBlockOpen; headerOf (name e)]) with 1%nat in IHo.
      change (countTok isSeparator [TBlockOpen; headerOf (name e)]) with 0%nat in IHs.
      unfold headerOf in IHl, IHn.
      cbn [linesOf app] in IHl. cbn [noticesOf app] in IHn.
      cbn [List.length map].
      split; [constructor; [exact (Huri Hnew) | exact IHuri] |].
      split; [rewrite IHh, <- app_assoc; reflexivity |]. split; [lia |]. split; [lia |].
      split.
      * rewrite IHl, <- app_assoc. reflexivity.
      * rewrite IHn. destruct (0 <? moreLines e); now rewrite <- app_assoc.
Qed.


Lemma ctx_counted (evs : list MatchEvent) :
  forall st st' : CtxState,
    executeGrep ctxCallback evs st = Done st' ->
    0 <= count st -> count st + len evs <= int_max ->
    count st' = count st + len (openers (lastName st) evs)
    /\ (countTok isBlockClose (bw st') + (if (0 <? count st')%Z then 1 else 0))%nat
       = (countTok isBlockClose (bw st) + (if (0 <? count st)%Z then 1 else 0)
          + List.length (openers (lastName st) evs))%nat.
Proof.
  induction evs as [| e evs IH]; intros st st' Hrun Hc Hmax; cbn [executeGrep] in Hrun.
  - injection Hrun as <-. unfold len. cbn [openers List.length]. split; lia.
  - destruct (ctxCallback st e) as [st1 | msg] eqn:Hcb; [| discriminate].
    cbn [bind] in Hrun.
    destruct (ctxCallback_done _ _ _ Hcb) as (Hname & Hcount & Hbw & _).
    rewrite len_cons in Hmax. pose proof (len_nonneg evs) as Hlen.
    cbn [openers].
    destruct (String.eqb_spec (lastName st) (name e)) as [Hsame | Hnew].
    + destruct (IH _ _ Hrun) as (IHc & IHb); [lia | lia |].
      rewrite Hname, <- Hsame in IHc, IHb. rewrite Hcount in IHc, IHb.
      rewrite Hbw in IHb.
      rewrite !countTok_app, (countTok_flushTok_other isBlockClose),
        (hitToks_plain isBlockClose) in IHb by reflexivity.
      change (countTok isBlockClose [TSeparator]) with 0%nat in IHb.
      split; lia.
    + rewrite wrap_small in Hcount by (unfold int_max in *; lia).
      destruct (IH _ _ Hrun) as (IHc & IHb); [lia | lia |].
      rewrite Hname in IHc, IHb. rewrite Hcount in IHc, IHb.
      rewrite Hbw in IHb.
      rewrite !countTok_app, (countTok_flushTok_other isBlockClose),
        (hitToks_plain isBlockClose) in IHb by reflexivity.
      change (countTok isBlockClose [TBlockOpen; headerOf (name e)]) with 0%nat in IHb.
      assert (Hpos : (0 <? count st + 1) = true) by (apply Z.ltb_lt; lia).
      rewrite Hpos in IHb.
      unfold len in *. cbn [List.length]. unfold closeTok in IHb.
      split; [lia |].
      destruct (0 <? count st); cbn in IHb; lia.
Qed.

Lemma executeGrep_app {S : Type} (fn : S -> MatchEvent -> outcome S)
      (evs1 evs2 : list MatchEvent) :
  forall s, executeGrep fn (evs1 ++ evs2) s
            = bind (executeGrep fn evs1 s) (executeGrep fn evs2).
Proof.
  induction evs1 as [| e evs1 IH]; intros s; cbn [app executeGrep bind]; [reflexivity |].
  destruct (fn s e) as [s' | msg]; cbn [bind]; [apply IH | reflexivity].
Qed.

(** The buffer only grows, by at most one flush per event. *)
Lemma ctx_grows (evs : list MatchEvent) :
  forall st st' : CtxState,
    executeGrep ctxCallback evs st = Done st' ->
    (exists rest, bw st' = bw st ++ rest)
    /\ (countTok isFlush (bw st') <= countTok isFlush (bw st) + List.length evs)%nat.
Proof.
  induction evs as [| e evs IH]; intros st st' Hrun; cbn [executeGrep] in Hrun.
  - injection Hrun as <-. split; [exists []; now rewrite app_nil_r | cbn; lia].
  - destruct (ctxCallback st e) as [st1 | msg] eqn:Hcb; [| discriminate].
    cbn [bind] in Hrun.
    destruct (ctxCallback_flush _ _ _ _ _ _ Hcb) as (rest1 & Hbw & Hnone).
    destruct (IH _ _ Hrun) as ((rest & Hrest) & Hfl).
    split.
    + exists ((flushTok (count st) ++ rest1) ++ rest). rewrite Hrest, Hbw.
      now rewrite <- !app_assoc.
    + rewrite Hbw, !countTok_app, Hnone, countTok_flushTok in Hfl.
      cbn [List.length]. destruct (flushDue (count st)); lia.
Qed.

(** *** [renderWithContext] on any stream *)

(** X1: [renderWithContext] returns exactly when every source at
    which the tracked source changes has a job URL; otherwise it
    panics. *)
Theorem context_returns_iff (evs : list MatchEvent) (err : option string) :
  (exists r, renderWithContext evs err = Done r)
  <-> Forall hasJobURI (openers ""%string evs).
Proof.
  unfold renderWithContext. split.
  - intros [r Hr].
    destruct (executeGrep ctxCallback evs ctxInit) as [st' | msg] eqn:Hrun; [| discriminate].
    exact (proj1 (ctx_written evs _ _ Hrun)).
  - intros Huri. destruct (ctx_returns evs ctxInit Huri) as [st' Hrun].
    rewrite Hrun. cbn [bind]. now eexists.
Qed.


(** X2: when [renderWithContext] returns, its count is the number of
    changes of source in the stream, so a source that comes back after
    another one is counted again, and the headers written are those of
    the changing sources, one each, in the order of the stream. *)
Theorem context_count_and_headers
    (evs : list MatchEvent) (err : option string) (r : Rendered) :
  renderWithContext evs err = Done r ->
  len evs <= int_max ->
  r_count r = len (openers ""%string evs)
  /\ filter isHeader (r_out r) = map headerOf (openers ""%string evs).
Proof.
  unfold renderWithContext. intros Hr Hmax.
  destruct (executeGrep ctxCallback evs ctxInit) as [st' | msg] eqn:Hrun; [| discriminate].
  cbn [bind] in Hr. injection Hr as <-.
  destruct (ctxFinish_out err st') as (Hc & _ & Ho).
  destruct (ctx_written evs _ _ Hrun) as (_ & Hh & _).
  destruct (ctx_counted evs _ _ Hrun) as (Hcount & _); [cbn; lia | cbn [ctxInit count]; lia |].
  cbn [ctxInit count bw lastName] in Hh, Hcount.
  split; [rewrite Hc, Hcount; lia |].
  rewrite Ho, !filter_app, Hh.
  assert (Hclose : filter isHeader (closeTok (count st')) = [])
    by (unfold closeTok; now destruct (0 <? count st')).
  rewrite Hclose. cbn [filter isHeader app]. now rewrite app_nil_r.
Qed.

(** X3: in the output of [renderWithContext] every block that was
    opened is closed: the opening and the closing tags are as many as
    the count returned. *)
Theorem context_blocks_balanced
    (evs : list MatchEvent) (err : option string) (r : Rendered) :
  renderWithContext evs err = Done r ->
  len evs <= int_max ->
  Z.of_nat (countTok isBlockOpen (r_out r)) = r_count r
  /\ countTok isBlockClose (r_out r) = countTok isBlockOpen (r_out r).
Proof.
  unfold renderWithContext. intros Hr Hmax.
  destruct (executeGrep ctxCallback evs ctxInit) as [st' | msg] eqn:Hrun; [| discriminate].
  cbn [bind] in Hr. injection Hr as <-.
  destruct (ctxFinish_out err st') as (Hc & _ & Ho).
  destruct (ctx_written evs _ _ Hrun) as (_ & _ & Hopen & _).
  destruct (ctx_counted evs _ _ Hrun) as (Hcount & Hclose);
    [cbn; lia | cbn [ctxInit count]; lia |].
  cbn [ctxInit count bw lastName] in Hopen, Hcount, Hclose.
  change (countTok isBlockOpen []) with 0%nat in Hopen.
  change (countTok isBlockClose []) with 0%nat in Hclose.
  change (0 <? 0) with false in Hclose.
  rewrite Ho, Hc, !countTok_app.
  change (countTok isBlockOpen [TFlush]) with 0%nat.
  change (countTok isBlockClose [TFlush]) with 0%nat.
  unfold closeTok. unfold len in Hcount.
  destruct (0 <? count st'); cbn [countTok filter isBlockOpen isBlockClose List.length];
    split; lia.
Qed.

(** X4: every event of the stream either opens a block or is set off
    from the hit before it by one separator. *)
Theorem context_separators
    (evs : list MatchEvent) (err : option string) (r : Rendered) :
  renderWithContext evs err = Done r ->
  (countTok isSeparator (r_out r) + List.length (openers ""%string evs))%nat
  = List.length evs.
Proof.
  unfold renderWithContext. intros Hr.
  destruct (executeGrep ctxCallback evs ctxInit) as [st' | msg] eqn:Hrun; [| discriminate].
  cbn [bind] in Hr. injection Hr as <-.
  destruct (ctxFinish_out err st') as (_ & _ & Ho).
  destruct (ctx_written evs _ _ Hrun) as (_ & _ & _ & Hsep & _).
  cbn [ctxInit bw lastName] in Hsep.
  change (countTok isSeparator []) with 0%nat in Hsep.
  rewrite Ho, !countTok_app.
  change (countTok isSeparator [TFlush]) with 0%nat.
  assert (Hclose : countTok isSeparator (closeTok (count st')) = 0%nat)
    by (unfold closeTok; now destruct (0 <? count st')).
  rewrite Hclose. lia.
Qed.

(** X5: the text lines in the output of [renderWithContext] are the
    kept lines of all hits in the order of arrival, none lost, repeated
    or moved, and the notices of elided lines are those of the events
    with a positive count, in order. *)
Theorem context_lines_in_order
    (evs : list MatchEvent) (err : option string) (r : Rendered) :
  renderWithContext evs err = Done r ->
  linesOf (r_out r) = flat_map (fun e => hitLines (matches e)) evs
  /\ noticesOf (r_out r) = elided evs.
Proof.
  unfold renderWithContext. intros Hr.
  destruct (executeGrep ctxCallback evs ctxInit) as [st' | msg] eqn:Hrun; [| discriminate].
  cbn [bind] in Hr. injection Hr as <-.
  destruct (ctxFinish_out err st') as (_ & _ & Ho).
  destruct (ctx_written evs _ _ Hrun) as (_ & _ & _ & _ & Hl & Hn).
  cbn [ctxInit bw app linesOf noticesOf] in Hl, Hn.
  rewrite Ho, !linesOf_app, !noticesOf_app, linesOf_closeTok, noticesOf_closeTok, Hl, Hn.
  cbn [linesOf noticesOf]. now rewrite !app_nil_r.
Qed.

(** X6: nothing written is taken back: when [renderWithContext]
    returns on a stream, the callbacks get through every head of that
    stream too, and what they have handed to the buffer by then is the
    beginning of the final output. *)
Theorem context_output_extends
    (evs1 evs2 : list MatchEvent) (err : option string) (r : Rendered) :
  renderWithContext (evs1 ++ evs2) err = Done r ->
  exists st1 rest,
    executeGrep ctxCallback evs1 ctxInit = Done st1
    /\ r_out r = bw st1 ++ rest.
Proof.
  unfold renderWithContext. rewrite executeGrep_app. intros Hr.
  destruct (executeGrep ctxCallback evs1 ctxInit) as [st1 | msg] eqn:Hrun1; [| discriminate].
  cbn [bind] in Hr.
  destruct (executeGrep ctxCallback evs2 st1) as [st2 | msg] eqn:Hrun2; [| discriminate].
  cbn [bind] in Hr. injection Hr as <-.
  destruct (ctxFinish_out err st2) as (_ & _ & Ho).
  destruct (ctx_grows evs2 _ _ Hrun2) as ((rest & Hrest) & _).
  exists st1, (rest ++ closeTok (count st2) ++ [TFlush]). split; [reflexivity |].
  rewrite Ho, Hrest. now rewrite <- app_assoc.
Qed.


(** *** [renderSummary] on any stream *)

Lemma hasJobURIb_false (n : string) :
  hasJobURIb n = false <-> JobURI (fst (MetadataFor n)) = None.
Proof.
  unfold hasJobURIb. destruct (JobURI (fst (MetadataFor n))); split; congruence.
Qed.

Lemma sumRun_app (evs1 evs2 : list MatchEvent) (st : SumState) :
  sumRun (evs1 ++ evs2) st = sumRun evs2 (sumRun evs1 st).
Proof. unfold sumRun. apply fold_left_app. Qed.

(** What a stream has written and logged, whatever its grouping. *)
Lemma sum_written (evs : list MatchEvent) :
  forall st : SumState,
    filter isRow (s_bw (sumRun evs st))
    = filter isRow (s_bw st)
      ++ map rowOf (filter hasJobURIb (openers (s_lastName st) evs))
    /\ s_log (sumRun evs st)
       = s_log st ++ filter (fun n => negb (hasJobURIb n)) (openers (s_lastName st) evs)
    /\ countTok isRowOpen (s_bw (sumRun evs st))
       = (countTok isRowOpen (s_bw st)
          + List.length (filter hasJobURIb (openers (s_lastName st) evs)))%nat
    /\ (countTok isFlush (s_bw (sumRun evs st))
        <= countTok isFlush (s_bw st) + List.length evs)%nat
    /\ exists rest, s_bw (sumRun evs st) = s_bw st ++ rest.
Proof.
  induction evs as [| e evs IH]; intros st.
  - cbn [sumRun fold_left openers filter map List.length]. rewrite !app_nil_r.
    repeat split; try lia. exists []. now rewrite app_nil_r.
  - rewrite sumRun_cons. cbn [openers List.length].
    destruct (String.eqb_spec (s_lastName st) (name e)) as [Hsame | Hnew].
    + rewrite sumCallback_same by assumption.
      match goal with |- context [sumRun evs ?s] =>
        destruct (IH s) as (IHr & IHl & IHo & IHf & (rest & IHg)) end.
      cbn [s_lastName s_bw s_log] in IHr, IHl, IHo, IHf, IHg.
      rewrite filter_app, (filter_flushTok isRow) in IHr by reflexivity.
      rewrite countTok_app, (countTok_flushTok_other isRowOpen) in IHo by reflexivity.
      rewrite countTok_app, countTok_flushTok in IHf.
      rewrite app_nil_r in IHr.
      split; [exact IHr |]. split; [exact IHl |]. split; [lia |].
      split; [destruct (flushDue (s_count st)); lia |].
      exists (flushTok (s_count st) ++ rest). rewrite IHg. now rewrite <- app_assoc.
    + destruct (JobURI (fst (MetadataFor (name e)))) as [u |] eqn:Hu.
      * assert (Huri : hasJobURI (name e)) by (unfold hasJobURI; congruence).
        assert (Hb : hasJobURIb (name e) = true) by (apply hasJobURIb_true; exact Huri).
        rewrite sumCallback_new by assumption.
        match goal with |- context [sumRun evs ?s] =>
          destruct (IH s) as (IHr & IHl & IHo & IHf & (rest & IHg)) end.
        cbn [s_lastName s_bw s_log] in IHr, IHl, IHo, IHf, IHg.
        cbn [filter]. rewrite Hb. cbn [negb map List.length].
        rewrite !filter_app, (filter_flushTok isRow) in IHr by reflexivity.
        rewrite !countTok_app, (countTok_flushTok_other isRowOpen) in IHo by reflexivity.
        rewrite !countTok_app, countTok_flushTok in IHf.
        change (countTok isRowOpen [TRowOpen; rowOf (name e)]) with 1%nat in IHo.
        change (countTok isFlush [TRowOpen; rowOf (name e)]) with 0%nat in IHf.
        unfold rowOf in IHr at 1. cbn [filter isRow app] in IHr. fold (rowOf (name e)) in IHr.
        split; [| split; [exact IHl | split; [| split]]].
        -- rewrite IHr. destruct (0 <? s_count st); cbn [filter isRow app];
             now rewrite <- app_assoc.
        -- rewrite IHo. destruct (0 <? s_count st); cbn; lia.
        -- assert (Hmid : countTok isFlush
                            (if 0 <? s_count st
                             then [TCount (currentLines st); TRowClose] else []) = 0%nat)
             by now destruct (0 <? s_count st).
           rewrite Hmid in IHf. destruct (flushDue (s_count st)); lia.
        -- eexists. rewrite IHg, <- !app_assoc. reflexivity.
      * assert (Hb : hasJobURIb (name e) = false) by (apply hasJobURIb_false; exact Hu).
        rewrite sumCallback_skip by assumption.
        match goal with |- context [sumRun evs ?s] =>
          destruct (IH s) as (IHr & IHl & IHo & IHf & (rest & IHg)) end.
        cbn [s_lastName s_bw s_log] in IHr, IHl, IHo, IHf, IHg.
        cbn [filter]. rewrite Hb. cbn [negb].
        rewrite filter_app, (filter_flushTok isRow) in IHr by reflexivity.
        rewrite countTok_app, (countTok_flushTok_other isRowOpen) in IHo by reflexivity.
        rewrite countTok_app, countTok_flushTok in IHf.
        rewrite app_nil_r in IHr.
        split; [exact IHr |]. split; [rewrite IHl, <- app_assoc; reflexivity |].
        split; [lia |]. split; [destruct (flushDue (s_count st)); lia |].
        exists (flushTok (s_count st) ++ rest). rewrite IHg. now rewrite <- app_assoc.
Qed.


Lemma sum_counted (evs : list MatchEvent) :
  forall st : SumState,
    0 <= s_count st -> s_count st + len evs <= int_max ->
    s_count (sumRun evs st)
    = s_count st + len (filter hasJobURIb (openers (s_lastName st) evs))
    /\ (countTok isRowClose (s_bw (sumRun evs st))
        + (if (0 <? s_count (sumRun evs st))%Z then 1 else 0))%nat
       = (countTok isRowClose (s_bw st) + (if (0 <? s_count st)%Z then 1 else 0)
          + List.length (filter hasJobURIb (openers (s_lastName st) evs)))%nat
    /\ (countTok isCount (s_bw (sumRun evs st))
        + (if (0 <? s_count (sumRun evs st))%Z then 1 else 0))%nat
       = (countTok isCount (s_bw st) + (if (0 <? s_count st)%Z then 1 else 0)
          + List.length (filter hasJobURIb (openers (s_lastName st) evs)))%nat.
Proof.
  induction evs as [| e evs IH]; intros st Hc Hmax.
  - unfold len. cbn [sumRun fold_left openers filter List.length]. repeat split; lia.
  - rewrite sumRun_cons. cbn [openers].
    rewrite len_cons in Hmax. pose proof (len_nonneg evs) as Hlen.
    destruct (String.eqb_spec (s_lastName st) (name e)) as [Hsame | Hnew].
    + rewrite sumCallback_same by assumption.
      match goal with |- context [sumRun evs ?s] =>
        destruct (IH s) as (IHc & IHr & IHn); cbn [s_count]; try lia end.
      cbn [s_count s_lastName s_bw] in IHc, IHr, IHn.
      rewrite countTok_app, (countTok_flushTok_other isRowClose) in IHr by reflexivity.
      rewrite countTok_app, (countTok_flushTok_other isCount) in IHn by reflexivity.
      repeat split; lia.
    + destruct (JobURI (fst (MetadataFor (name e)))) as [u |] eqn:Hu.
      * assert (Huri : hasJobURI (name e)) by (unfold hasJobURI; congruence).
        assert (Hb : hasJobURIb (name e) = true) by (apply hasJobURIb_true; exact Huri).
        rewrite sumCallback_new by assumption.
        rewrite (wrap_small (s_count st + 1)) by (unfold int_max in *; lia).
        match goal with |- context [sumRun evs ?s] =>
          destruct (IH s) as (IHc & IHr & IHn); cbn [s_count]; try lia end.
        cbn [s_count s_lastName s_bw] in IHc, IHr, IHn.
        cbn [filter]. rewrite Hb. cbn [List.length]. rewrite len_cons.
        rewrite !countTok_app, (countTok_flushTok_other isRowClose) in IHr by reflexivity.
        rewrite !countTok_app, (countTok_flushTok_other isCount) in IHn by reflexivity.
        change (countTok isRowClose [TRowOpen; rowOf (name e)]) with 0%nat in IHr.
        change (countTok isCount [TRowOpen; rowOf (name e)]) with 0%nat in IHn.
        assert (Hpos : (0 <? s_count st + 1) = true) by (apply Z.ltb_lt; lia).
        rewrite Hpos in IHr, IHn.
        split; [lia |].
        destruct (0 <? s_count st);
          change (countTok isRowClose [TCount (currentLines st); TRowClose]) with 1%nat in IHr;
          change (countTok isCount [TCount (currentLines st); TRowClose]) with 1%nat in IHn;
          change (countTok isRowClose []) with 0%nat in IHr;
          change (countTok isCount []) with 0%nat in IHn;
          split; lia.
      * assert (Hb : hasJobURIb (name e) = false) by (apply hasJobURIb_false; exact Hu).
        rewrite sumCallback_skip by assumption.
        match goal with |- context [sumRun evs ?s] =>
          destruct (IH s) as (IHc & IHr & IHn); cbn [s_count]; try lia end.
        cbn [s_count s_lastName s_bw] in IHc, IHr, IHn.
        cbn [filter]. rewrite Hb.
        rewrite countTok_app, (countTok_flushTok_other isRowClose) in IHr by reflexivity.
        rewrite countTok_app, (countTok_flushTok_other isCount) in IHn by reflexivity.
        repeat split; lia.
Qed.

(** Every event but the first of a block without job URL is counted
    once: in a count already written or in the running counter. *)
Lemma sum_conserved (evs : list MatchEvent) :
  forall st : SumState,
    0 <= currentLines st -> currentLines st + len evs <= int_max ->
    sumZ (countsOf (s_bw (sumRun evs st))) + currentLines (sumRun evs st)
    = sumZ (countsOf (s_bw st)) + currentLines st + len evs
      - len (filter (fun n => negb (hasJobURIb n)) (openers (s_lastName st) evs)).
Proof.
  induction evs as [| e evs IH]; intros st Hc Hmax.
  - unfold len. cbn [sumRun fold_left openers filter List.length]. lia.
  - rewrite sumRun_cons. cbn [openers].
    rewrite len_cons in Hmax |- *. pose proof (len_nonneg evs) as Hlen.
    destruct (String.eqb_spec (s_lastName st) (name e)) as [Hsame | Hnew].
    + rewrite sumCallback_same by assumption.
      rewrite (wrap_small (currentLines st + 1)) by (unfold int_max in *; lia).
      rewrite IH by (cbn [currentLines]; lia).
      cbn [s_lastName s_bw currentLines].
      rewrite countsOf_app, countsOf_flushTok, app_nil_r. lia.
    + destruct (JobURI (fst (MetadataFor (name e)))) as [u |] eqn:Hu.
      * assert (Huri : hasJobURI (name e)) by (unfold hasJobURI; congruence).
        assert (Hb : hasJobURIb (name e) = true) by (apply hasJobURIb_true; exact Huri).
        rewrite sumCallback_new by assumption.
        cbn [filter]. rewrite Hb. cbn [negb].
        destruct (0 <? s_count st).
        -- rewrite (wrap_small (0 + 1)) by (unfold int_max; lia).
           rewrite IH by (cbn [currentLines]; lia).
           cbn [s_lastName s_bw currentLines].
           rewrite !countsOf_app, countsOf_flushTok.
           change (countsOf [TRowOpen; rowOf (name e)]) with (@nil Z).
           cbn [countsOf app]. rewrite sumZ_app. unfold sumZ at 2. cbn [fold_right]. lia.
        -- rewrite (wrap_small (currentLines st + 1)) by (unfold int_max in *; lia).
           rewrite IH by (cbn [currentLines]; lia).
           cbn [s_lastName s_bw currentLines].
           rewrite !countsOf_app, countsOf_flushTok.
           change (countsOf [TRowOpen; rowOf (name e)]) with (@nil Z).
           cbn [countsOf app]. rewrite app_nil_r. lia.
      * assert (Hb : hasJobURIb (name e) = false) by (apply hasJobURIb_false; exact Hu).
        rewrite sumCallback_skip by assumption.
        cbn [filter]. rewrite Hb. cbn [negb]. rewrite len_cons.
        rewrite IH by (cbn [currentLines]; lia).
        cbn [s_lastName s_bw currentLines].
        rewrite countsOf_app, countsOf_flushTok, app_nil_r. lia.
Qed.


Lemma countsOf_length (out : list Tok) : List.length (countsOf out) = countTok isCount out.
Proof.
  induction out as [| t out IH]; [reflexivity |].
  unfold countTok in *. destruct t; cbn [countsOf filter isCount List.length]; now rewrite ?IH.
Qed.

(** X7: the count that [renderSummary] returns is the number of
    changes of source whose source has a job URL, and the rows written
    are those of these sources, one each, in the order of the stream. *)
Theorem summary_count_and_rows (evs : list MatchEvent) (err : option string) :
  len evs <= int_max ->
  r_count (renderSummary evs err) = len (filter hasJobURIb (openers ""%string evs))
  /\ filter isRow (r_out (renderSummary evs err))
     = map rowOf (filter hasJobURIb (openers ""%string evs)).
Proof.
  intros Hmax. unfold renderSummary.
  destruct (sumFinish_out err (sumRun evs sumInit))
    as (Hc & _ & Ho).
  destruct (sum_written evs sumInit) as (Hrows & _).
  destruct (sum_counted evs sumInit) as (Hcount & _); [cbn; lia | cbn [sumInit s_count]; lia |].
  cbn [sumInit s_count s_lastName s_bw] in Hrows, Hcount.
  split; [rewrite Hc, Hcount; lia |].
  rewrite Ho, !filter_app, Hrows. cbn [filter isRow app].
  assert (Hmid : filter isRow
                   (if 0 <? s_count (sumRun evs sumInit)
                    then [TCount (currentLines (sumRun evs sumInit)); TRowClose] else []) = [])
    by now destruct (0 <? s_count (sumRun evs sumInit)).
  rewrite Hmid. now rewrite !app_nil_r.
Qed.

(** X8: [renderSummary] logs exactly the changes of the tracked
    source to a source without job URL, in order: one entry at the first
    event after each such change and nothing at the further events.
    The tracker starts as the empty string, so events with the empty
    source at the head of the stream are never looked up or logged; for
    a stream whose first source is not empty the changes are the blocks
    of the stream, and each block without job URL is logged once. *)
Theorem summary_logs_skipped_blocks (evs : list MatchEvent) :
  s_log (sumRun evs sumInit)
  = filter (fun n => negb (hasJobURIb n)) (openers ""%string evs)
  /\ (hd_error (map name evs) <> Some ""%string ->
      s_log (sumRun evs sumInit)
      = filter (fun n => negb (hasJobURIb n)) (map fst (blocks evs))).
Proof.
  destruct (sum_written evs sumInit) as (_ & Hlog & _).
  cbn [sumInit s_log s_lastName app] in Hlog.
  split; [exact Hlog |].
  intros Hfirst. now rewrite <- (openers_blocks evs Hfirst).
Qed.

(** X9: once [renderSummary] has written a row, the counts of all
    rows add up to the number of events less the number of changes of
    the tracked source to a source without job URL (the events that
    return before the counter); when no row is written, no count is
    written either.  For a stream whose first source is not empty the
    changes are its blocks, so the events left out are the first events
    of the blocks without job URL. *)
Theorem summary_hits_conserved (evs : list MatchEvent) (err : option string) :
  len evs <= int_max ->
  (0 < r_count (renderSummary evs err) ->
   sumZ (countsOf (r_out (renderSummary evs err)))
   = len evs - len (filter (fun n => negb (hasJobURIb n)) (openers ""%string evs)))
  /\ (0 < r_count (renderSummary evs err) ->
      hd_error (map name evs) <> Some ""%string ->
      sumZ (countsOf (r_out (renderSummary evs err)))
      = len evs - len (filter (fun n => negb (hasJobURIb n)) (map fst (blocks evs))))
  /\ (r_count (renderSummary evs err) = 0 ->
      countsOf (r_out (renderSummary evs err)) = []).
Proof.
  intros Hmax.
  assert (Hmain :
    (0 < r_count (renderSummary evs err) ->
     sumZ (countsOf (r_out (renderSummary evs err)))
     = len evs - len (filter (fun n => negb (hasJobURIb n)) (openers ""%string evs)))
    /\ (r_count (renderSummary evs err) = 0 ->
        countsOf (r_out (renderSummary evs err)) = [])).
  { unfold renderSummary.
    destruct (sumFinish_out err (sumRun evs sumInit))
      as (Hc & _ & Ho).
    pose proof (len_nonneg evs) as Hlen.
    pose proof (sum_conserved evs sumInit) as Hsum.
    destruct (sum_counted evs sumInit) as (Hcount & _ & Hcounts);
      [cbn; lia | cbn [sumInit s_count]; lia |].
    cbn [sumInit s_count currentLines s_lastName s_bw] in Hsum, Hcount, Hcounts.
    specialize (Hsum ltac:(lia) ltac:(lia)).
    change (countTok isCount [TTableHead]) with 0%nat in Hcounts.
    change (0 <? 0) with false in Hcounts.
    cbn [countsOf] in Hsum. unfold sumZ at 2 in Hsum. cbn [fold_right] in Hsum.
    rewrite Hc, Ho, !countsOf_app. cbn [countsOf]. rewrite app_nil_r. split.
    - intros Hpos. apply Z.ltb_lt in Hpos. rewrite Hpos. cbn [countsOf].
      rewrite sumZ_app. unfold sumZ at 2. cbn [fold_right]. lia.
    - intros Hzero. rewrite Hzero in *. change (0 <? 0) with false in *.
      rewrite app_nil_r. apply length_zero_iff_nil. rewrite countsOf_length.
      unfold len in Hcount. cbn iota in Hcounts. lia. }
  destruct Hmain as [Hsum Hnone].
  split; [exact Hsum |]. split; [| exact Hnone].
  intros Hpos Hfirst. rewrite <- (openers_blocks evs Hfirst). exact (Hsum Hpos).
Qed.

(** X10: the output of [renderSummary] begins with the head of the
    table, and every row that was opened gets one count and is closed:
    the row openings, the counts and the row ends are as many as the
    count returned. *)
Theorem summary_rows_balanced (evs : list MatchEvent) (err : option string) :
  len evs <= int_max ->
  hd_error (r_out (renderSummary evs err)) = Some TTableHead
  /\ Z.of_nat (countTok isRowOpen (r_out (renderSummary evs err)))
     = r_count (renderSummary evs err)
  /\ countTok isCount (r_out (renderSummary evs err))
     = countTok isRowOpen (r_out (renderSummary evs err))
  /\ countTok isRowClose (r_out (renderSummary evs err))
     = countTok isRowOpen (r_out (renderSummary evs err)).
Proof.
  intros Hmax. unfold renderSummary.
  destruct (sumFinish_out err (sumRun evs sumInit))
    as (Hc & _ & Ho).
  destruct (sum_written evs sumInit) as (_ & _ & Hopen & _ & (rest & Hrest)).
  destruct (sum_counted evs sumInit) as (Hcount & Hclose & Hcounts);
    [cbn; lia | cbn [sumInit s_count]; lia |].
  cbn [sumInit s_count s_lastName s_bw] in Hopen, Hrest, Hcount, Hclose, Hcounts.
  change (countTok isRowOpen [TTableHead]) with 0%nat in Hopen.
  change (countTok isRowClose [TTableHead]) with 0%nat in Hclose.
  change (countTok isCount [TTableHead]) with 0%nat in Hcounts.
  change (0 <? 0) with false in Hclose, Hcounts.
  unfold len in Hcount.
  rewrite Hc, Ho. split; [rewrite Hrest; reflexivity |].
  rewrite !countTok_app.
  change (countTok isRowOpen [TFlush]) with 0%nat.
  change (countTok isRowClose [TFlush]) with 0%nat.
  change (countTok isCount [TFlush]) with 0%nat.
  destruct (0 <? s_count (sumRun evs sumInit));
    cbn [countTok filter isRowOpen isRowClose isCount List.length];
    repeat split; lia.
Qed.

(** X11: nothing written by [renderSummary] is taken back: what the
    callbacks have handed to the buffer after a head of the stream is
    the beginning of the output for the whole stream. *)
Theorem summary_output_extends (evs1 evs2 : list MatchEvent) (err : option string) :
  exists rest,
    r_out (renderSummary (evs1 ++ evs2) err) = s_bw (sumRun evs1 sumInit) ++ rest.
Proof.
  unfold renderSummary. rewrite sumRun_app.
  destruct (sumFinish_out err
              (sumRun evs2 (sumRun evs1 sumInit))) as (_ & _ & Ho).
  destruct (sum_written evs2 (sumRun evs1 sumInit)) as (_ & _ & _ & _ & (rest & Hrest)).
  eexists. rewrite Ho, Hrest, <- app_assoc. reflexivity.
Qed.

(** X12: both renderers flush at most once per event and once more
    at the end, and the last thing they do with the buffer is a flush. *)
Theorem flushes_bounded (evs : list MatchEvent) (err : option string) :
  (forall r, renderWithContext evs err = Done r ->
             (1 <= countTok isFlush (r_out r) <= List.length evs + 1)%nat
             /\ last (r_out r) TTableHead = TFlush)
  /\ (1 <= countTok isFlush (r_out (renderSummary evs err)) <= List.length evs + 1)%nat
  /\ last (r_out (renderSummary evs err)) TTableHead = TFlush.
Proof.
  split.
  - unfold renderWithContext. intros r Hr.
    destruct (executeGrep ctxCallback evs ctxInit) as [st' | msg] eqn:Hrun; [| discriminate].
    cbn [bind] in Hr. injection Hr as <-.
    destruct (ctxFinish_out err st') as (_ & _ & Ho).
    destruct (ctx_grows evs _ _ Hrun) as (_ & Hfl).
    cbn [ctxInit bw] in Hfl. change (countTok isFlush []) with 0%nat in Hfl.
    rewrite Ho. split.
    + rewrite !countTok_app. change (countTok isFlush [TFlush]) with 1%nat.
      assert (Hclose : countTok isFlush (closeTok (count st')) = 0%nat)
        by (unfold closeTok; now destruct (0 <? count st')).
      rewrite Hclose. lia.
    + rewrite !app_assoc. apply last_last.
  - unfold renderSummary.
    destruct (sumFinish_out err (sumRun evs sumInit))
      as (_ & _ & Ho).
    destruct (sum_written evs sumInit) as (_ & _ & _ & Hfl & _).
    cbn [sumInit s_bw] in Hfl. change (countTok isFlush [TTableHead]) with 0%nat in Hfl.
    rewrite Ho. split.
    + rewrite !countTok_app. change (countTok isFlush [TFlush]) with 1%nat.
      assert (Hmid : countTok isFlush
                       (if 0 <? s_count (sumRun evs sumInit)
                        then [TCount (currentLines (sumRun evs sumInit)); TRowClose]
                        else []) = 0%nat)
        by now destruct (0 <? s_count (sumRun evs sumInit)).
      rewrite Hmid. lia.
    + rewrite !app_assoc. apply last_last.
Qed.

End RendererStreams.

(** ** The lines kept of a hit *)

Lemma TrimRight_idempotent (s : string) : TrimRight (TrimRight s) = TrimRight s.
Proof.
  induction s as [| c s IH]; [reflexivity |].
  cbn [TrimRight]. destruct (TrimRight s) as [| d t] eqn:Ht.
  - destruct (Ascii.eqb c " ") eqn:Hc; [reflexivity |].
    cbn [TrimRight]. now rewrite Hc.
  - change (TrimRight (String c (String d t)))
      with (match TrimRight (String d t) with
            | EmptyString => if Ascii.eqb c " " then EmptyString else String c EmptyString
            | String d' t' => String c (String d' t')
            end).
    now rewrite IH.
Qed.

Lemma TrimRight_cuts_spaces (s : string) :
  exists k, s = (TrimRight s ++ spaces k)%string.
Proof.
  induction s as [| c s [k IH]]; [now exists O |].
  cbn [TrimRight]. destruct (TrimRight s) as [| d t] eqn:Ht.
  - cbn [String.append] in IH. destruct (Ascii.eqb_spec c " ") as [-> | Hc].
    + exists (S k). cbn [String.append spaces]. now rewrite <- IH.
    + exists k. cbn [String.append]. now rewrite <- IH.
  - exists k. cbn [String.append] in IH |- *. now rewrite <- IH.
Qed.

Lemma TrimRight_no_trailing_space (s : string) : endsWithSpace (TrimRight s) = false.
Proof.
  induction s as [| c s IH]; [reflexivity |].
  cbn [TrimRight]. destruct (TrimRight s) as [| d t] eqn:Ht.
  - destruct (Ascii.eqb c " ") eqn:Hc; [reflexivity |]. cbn [endsWithSpace]. exact Hc.
  - exact IH.
Qed.

(** X13: cutting the lines of a hit is idempotent: lines that were
    kept are all kept, unchanged, when they are cut again. *)
Theorem hitLines_idempotent (ms : list string) : hitLines (hitLines ms) = hitLines ms.
Proof.
  rewrite !hitLines_filter.
  induction ms as [| m ms IH]; [reflexivity |].
  cbn [map filter]. destruct (nonblank (TrimRight m)) eqn:Hnb; [| exact IH].
  cbn [map filter]. rewrite TrimRight_idempotent, Hnb. now rewrite IH.
Qed.

(** X14: every line kept of a hit is a line of the hit with nothing
    but spaces taken off its end; it is not empty and does not end in a
    space; and no more lines are kept than the hit has. *)
Theorem hitLines_kept_lines (ms : list string) :
  (List.length (hitLines ms) <= List.length ms)%nat
  /\ forall l, In l (hitLines ms) ->
       l <> EmptyString
       /\ endsWithSpace l = false
       /\ exists m k, In m ms /\ m = (l ++ spaces k)%string.
Proof.
  rewrite hitLines_filter. split.
  - rewrite <- (length_map TrimRight ms). apply filter_length_le.
  - intros l Hin. apply filter_In in Hin. destruct Hin as [Hin Hnb].
    apply in_map_iff in Hin. destruct Hin as (m & <- & Hm).
    split; [intros Hempty; rewrite Hempty in Hnb; discriminate |].
    split; [apply TrimRight_no_trailing_space |].
    destruct (TrimRight_cuts_spaces m) as [k Hk]. now exists m, k.
Qed.

(** ** More on query normalization *)

Lemma slen_pos_iff (s : string) : (0 <? slen s) = true <-> s <> EmptyString.
Proof.
  split; [| apply slen_pos].
  intros H ->. discriminate.
Qed.

Lemma slen_zero_iff (s : string) : (slen s =? 0) = true <-> s = EmptyString.
Proof.
  destruct s as [| c s]; [split; reflexivity |].
  split; [| discriminate].
  intros H. apply Z.eqb_eq in H. unfold slen in H. cbn [String.length] in H. lia.
Qed.

Lemma parseSearchType_accepts (value : string) :
  (exists ty, parseSearchType value = inr ty)
  <-> In value ["junit"; "build-log"; "all"; ""]%string.
Proof.
  unfold parseSearchType. cbn [In].
  destruct (String.eqb_spec value "junit") as [-> | H1];
    [split; [intros _; auto | now eexists] |].
  destruct (String.eqb_spec value "build-log") as [-> | H2];
    [split; [intros _; auto | now eexists] |].
  destruct (String.eqb_spec value "all") as [-> | H3];
    [split; [intros _; auto | now eexists] |].
  destruct (String.eqb_spec value "") as [-> | H4];
    [split; [intros _; auto 6 | now eexists] |].
  cbn [orb]. split.
  - intros [ty Hty]. discriminate.
  - intros [H | [H | [H | [H | []]]]]; congruence.
Qed.

Section NormalizationMore.

Variable Regexp : Type.
Variable regexpCompile : string -> string + Regexp.
Variable ParseDuration : string -> string + Z.
Variable Atoi : string -> string + Z.
Variable serverMaxAge : Z.

Local Abbreviation parseRequest :=
  (parseRequest Regexp regexpCompile ParseDuration Atoi serverMaxAge).
Local Abbreviation parseMaxAge := (parseMaxAge ParseDuration).
Local Abbreviation parseContext := (parseContext Atoi).
Local Abbreviation parseJob := (parseJob Regexp regexpCompile).
Local Abbreviation clampMaxAge := (clampMaxAge serverMaxAge).

Lemma parseRequest_built (req : Request) (mode ty : string) (job : option Regexp) (d c : Z) :
  formError req = None ->
  parseSearchType (form_type req) = inr ty ->
  parseJob (form_name req) mode = inr job ->
  parseMaxAge (form_maxAge req) = inr d ->
  parseContext (form_context req) mode = inr c ->
  parseRequest req mode
  = inr (mkIndex (if (len (form_search req) =? 0) && String.eqb mode "chart"
                  then form_search req ++ chartSearch else form_search req)
                 ty job (clampMaxAge d mode) c).
Proof.
  intros Hform Hty Hjob Hage Hctx. unfold parseRequest.
  rewrite Hform, Hty. cbn [andThen]. rewrite Hjob. cbn [andThen].
  rewrite Hage. cbn [andThen]. rewrite Hctx. reflexivity.
Qed.

Lemma parseRequest_index (req : Request) (mode : string) (index : Index Regexp) :
  parseRequest req mode = inr index ->
  exists d,
    parseMaxAge (form_maxAge req) = inr d
    /\ index
       = mkIndex (if (len (form_search req) =? 0) && String.eqb mode "chart"
                  then form_search req ++ chartSearch else form_search req)
                 (SearchType index) (Job index) (clampMaxAge d mode) (Context index).
Proof.
  intros Hparse.
  destruct (parseRequest_passes _ _ _ _ _ _ _ _ Hparse)
    as (Hform & Hty & Hjob & (d & Hage) & Hctx).
  exists d. split; [exact Hage |].
  rewrite (parseRequest_built _ _ _ _ _ _ Hform Hty Hjob Hage Hctx) in Hparse.
  now injection Hparse as <-.
Qed.

Lemma parseJob_accepts (value mode : string) :
  (exists job, parseJob value mode = inr job)
  <-> (value = EmptyString /\ mode <> "chart"%string)
      \/ exists re, regexpCompile (if slen value =? 0 then "-e2e-"%string else value) = inr re.
Proof.
  unfold parseJob.
  destruct (0 <? slen value) eqn:Hgiven; cbn [orb].
  - destruct (regexpCompile (if slen value =? 0 then "-e2e-"%string else value))
      as [msg | re]; split.
    + intros [job Hjob]. discriminate.
    + intros [[Hempty _] | [re Hre]]; [| discriminate].
      apply slen_pos_iff in Hgiven. contradiction.
    + intros _. right. now exists re.
    + intros _. now eexists.
  - apply slen_empty in Hgiven. subst value.
    destruct (String.eqb_spec mode "chart") as [Hchart | Hother].
    + destruct (regexpCompile (if slen "" =? 0 then "-e2e-"%string else ""%string))
        as [msg | re]; split.
      * intros [job Hjob]. discriminate.
      * intros [[_ Hno] | [re Hre]]; [contradiction | discriminate].
      * intros _. right. now exists re.
      * intros _. now eexists.
    + split; [intros _; left; now split | intros _; now eexists].
Qed.

Lemma parseMaxAge_accepts (value : string) :
  (exists d, parseMaxAge value = inr d)
  <-> value = EmptyString \/ exists d, ParseDuration value = inr d /\ 0 <= d.
Proof.
  unfold parseMaxAge.
  destruct (0 <? slen value) eqn:Hgiven.
  - apply slen_pos_iff in Hgiven.
    destruct (ParseDuration value) as [msg | d]; split.
    + intros [d Hd]. discriminate.
    + intros [Hempty | (d & Hd & _)]; [contradiction | discriminate].
    + destruct (d <? 0) eqn:Hneg; [intros [d' Hd']; discriminate |].
      intros _. right. exists d. apply Z.ltb_ge in Hneg. now split.
    + intros [Hempty | (d' & Hd' & Hpos)]; [contradiction |].
      injection Hd' as ->. apply Z.ltb_ge in Hpos. rewrite Hpos. now eexists.
  - apply slen_empty in Hgiven. split; [intros _; now left | intros _; now eexists].
Qed.

Lemma parseMaxAge_nonneg (value : string) (d : Z) :
  parseMaxAge value = inr d -> 0 <= d.
Proof.
  unfold parseMaxAge. destruct (0 <? slen value).
  - destruct (ParseDuration value) as [msg | d']; [discriminate |].
    destruct (d' <? 0) eqn:Hneg; [discriminate |].
    intros [= <-]. now apply Z.ltb_ge in Hneg.
  - intros [= <-]. lia.
Qed.

Lemma parseContext_accepts (value mode : string) :
  (exists c, parseContext value mode = inr c)
  <-> value = EmptyString \/ exists n, Atoi value = inr n /\ -1 <= n <= 15.
Proof.
  unfold parseContext.
  destruct (0 <? slen value) eqn:Hgiven.
  - apply slen_pos_iff in Hgiven.
    destruct (Atoi value) as [msg | n]; split.
    + intros [c Hc]. discriminate.
    + intros [Hempty | (n & Hn & _)]; [contradiction | discriminate].
    + destruct (n <? -1) eqn:Hlo; [intros [c Hc]; discriminate |].
      destruct (15 <? n) eqn:Hhi; [intros [c Hc]; discriminate |].
      intros _. right. exists n. apply Z.ltb_ge in Hlo, Hhi. split; [reflexivity | lia].
    + intros [Hempty | (n' & Hn' & Hrange)]; [contradiction |].
      injection Hn' as <-.
      assert (Hlo : (n <? -1) = false) by (apply Z.ltb_ge; lia).
      assert (Hhi : (15 <? n) = false) by (apply Z.ltb_ge; lia).
      rewrite Hlo, Hhi. now eexists.
  - apply slen_empty in Hgiven. split; [intros _; now left |].
    intros _. destruct (String.eqb mode "text"); now eexists.
Qed.

Lemma parseSearchType_value (value : string) :
  In value ["junit"; "build-log"; "all"; ""]%string ->
  parseSearchType value
  = inr (if String.eqb value "" then "all"%string else value).
Proof.
  intros [<- | [<- | [<- | [<- | []]]]]; reflexivity.
Qed.

Lemma parseContext_absent (mode : string) :
  parseContext EmptyString mode = inr (if String.eqb mode "text" then 2 else 0).
Proof. unfold parseContext. cbn. now destruct (String.eqb mode "text"). Qed.

Lemma parseContext_given (value mode : string) (n : Z) :
  value <> EmptyString -> Atoi value = inr n -> -1 <= n <= 15 ->
  parseContext value mode = inr n.
Proof.
  intros Hgiven Hn Hrange. unfold parseContext. rewrite (slen_pos _ Hgiven), Hn.
  assert (Hlo : (n <? -1) = false) by (apply Z.ltb_ge; lia).
  assert (Hhi : (15 <? n) = false) by (apply Z.ltb_ge; lia).
  now rewrite Hlo, Hhi.
Qed.

Lemma parseContext_value (value mode : string) :
  (value = EmptyString \/ exists n, Atoi value = inr n /\ -1 <= n <= 15) ->
  exists c,
    parseContext value mode = inr c
    /\ (value = EmptyString -> c = if String.eqb mode "text" then 2 else 0)
    /\ (forall n, value <> EmptyString -> Atoi value = inr n -> c = n).
Proof.
  intros Hok. destruct (String.eqb_spec value "") as [-> | Hgiven].
  - exists (if String.eqb mode "text" then 2 else 0).
    split; [apply parseContext_absent |]. split; [reflexivity |].
    intros n Hne. contradiction.
  - destruct Hok as [Hempty | (n & Hn & Hrange)]; [contradiction |].
    exists n. split; [now apply parseContext_given |]. split; [intros He; contradiction |].
    intros n' _ Hn'. congruence.
Qed.

(** C8: [parseRequest] returns an error, and with it no descriptor at
    all, when the search type is none of junit, build-log, all and the
    empty string, when a given maxAge does not parse or is negative, and
    when a given context is not a number from -1 to 15.  A request whose
    form parses and whose type, name, maxAge and context all pass is
    accepted: its descriptor has the type of the request, all for the
    empty type, the context of the request, and for an absent context 2
    in text mode (0 in the other modes). *)
Theorem parseRequest_rejects_malformed (req : Request) (mode : string) :
  (form_type req <> "junit"%string -> form_type req <> "build-log"%string ->
   form_type req <> "all"%string -> form_type req <> ""%string ->
   exists e, parseRequest req mode = inl e)
  /\ (forall msg, form_maxAge req <> ""%string ->
                  ParseDuration (form_maxAge req) = inl msg ->
                  exists e, parseRequest req mode = inl e)
  /\ (forall d, form_maxAge req <> ""%string ->
                ParseDuration (form_maxAge req) = inr d -> d < 0 ->
                exists e, parseRequest req mode = inl e)
  /\ (form_context req <> ""%string ->
      (forall n, Atoi (form_context req) = inr n -> n < -1 \/ 15 < n) ->
      exists e, parseRequest req mode = inl e)
  /\ (forall index, parseRequest req mode = inr index ->
        In (SearchType index) ["junit"; "build-log"; "all"]%string
        /\ (form_type req = ""%string -> SearchType index = "all"%string)
        /\ -1 <= Context index <= 15
        /\ (form_context req = ""%string -> mode = "text"%string -> Context index = 2))
  /\ (formError req = None ->
      In (form_type req) ["junit"; "build-log"; "all"; ""]%string ->
      ((form_name req = EmptyString /\ mode <> "chart"%string)
       \/ exists re,
            regexpCompile (if slen (form_name req) =? 0 then "-e2e-"%string
                           else form_name req) = inr re) ->
      (form_maxAge req = EmptyString
       \/ exists d, ParseDuration (form_maxAge req) = inr d /\ 0 <= d) ->
      (form_context req = EmptyString
       \/ exists n, Atoi (form_context req) = inr n /\ -1 <= n <= 15) ->
      exists index,
        parseRequest req mode = inr index
        /\ SearchType index
           = (if String.eqb (form_type req) "" then "all"%string else form_type req)
        /\ (form_context req = EmptyString ->
            Context index = if String.eqb mode "text" then 2 else 0)
        /\ (forall n, form_context req <> EmptyString ->
                      Atoi (form_context req) = inr n -> Context index = n)).
Proof.
  split; [| split; [| split; [| split; [| split]]]].
  - intros H1 H2 H3 H4. apply parseRequest_fails_when. left.
    exists ErrSearchType. unfold parseSearchType.
    apply String.eqb_neq in H1, H2, H3, H4. now rewrite H1, H2, H3, H4.
  - intros msg Hgiven Hparse. apply parseRequest_fails_when. right; left.
    exists (ErrMaxAgeInvalid msg). unfold parseMaxAge.
    now rewrite (slen_pos _ Hgiven), Hparse.
  - intros d Hgiven Hparse Hneg. apply parseRequest_fails_when. right; left.
    exists ErrMaxAgeNegative. unfold parseMaxAge.
    rewrite (slen_pos _ Hgiven), Hparse.
    apply Z.ltb_lt in Hneg. now rewrite Hneg.
  - intros Hgiven Hbad. apply parseRequest_fails_when. right; right.
    exists ErrContext. unfold parseContext. rewrite (slen_pos _ Hgiven).
    destruct (Atoi (form_context req)) as [msg | num] eqn:Hnum; [reflexivity |].
    destruct (Hbad num eq_refl) as [Hlo | Hhi].
    + apply Z.ltb_lt in Hlo. now rewrite Hlo.
    + apply Z.ltb_lt in Hhi. rewrite Hhi. now rewrite orb_true_r.
  - intros index Hparse.
    destruct (parseRequest_passes _ _ _ _ _ _ _ _ Hparse) as (_ & Hty & _ & _ & Hctx).
    split; [| split; [| split]].
    + unfold parseSearchType in Hty.
      destruct (String.eqb (form_type req) "junit");
        [injection Hty as <-; cbn; tauto |].
      destruct (String.eqb (form_type req) "build-log");
        [injection Hty as <-; cbn; tauto |].
      destruct (String.eqb (form_type req) "all" || String.eqb (form_type req) "");
        [injection Hty as <-; cbn; tauto | discriminate].
    + intros Hempty. rewrite Hempty in Hty. cbn in Hty. congruence.
    + exact (parseContext_range _ _ _ _ Hctx).
    + intros Hempty ->. rewrite Hempty in Hctx. cbn in Hctx. congruence.
  - intros Hform Hty Hjob Hage Hctx.
    pose proof (parseSearchType_value _ Hty) as Htype.
    apply (parseJob_accepts _ mode) in Hjob. destruct Hjob as [job Hjob].
    apply parseMaxAge_accepts in Hage. destruct Hage as [d Hage].
    destruct (parseContext_value _ mode Hctx) as (c & Hc & Habsent & Hgiven).
    exists (mkIndex (if (len (form_search req) =? 0) && String.eqb mode "chart"
                     then form_search req ++ chartSearch else form_search req)
                    (if String.eqb (form_type req) "" then "all"%string else form_type req)
                    job (clampMaxAge d mode) c).
    split; [exact (parseRequest_built _ _ _ _ _ _ Hform Htype Hjob Hage Hc) |].
    cbn [SearchType Context]. split; [reflexivity |]. split; [exact Habsent | exact Hgiven].
Qed.

(** X15: [parseRequest] accepts a request exactly when the form
    parses, the type is junit, build-log, all or empty, the name (or in
    chart mode the default -e2e-) compiles or no name is given outside
    chart mode, maxAge is absent or a duration that is not negative, and
    context is absent or a number from -1 to 15. *)
Theorem parseRequest_accepts_iff (req : Request) (mode : string) :
  (exists index, parseRequest req mode = inr index)
  <-> formError req = None
      /\ In (form_type req) ["junit"; "build-log"; "all"; ""]%string
      /\ ((form_name req = EmptyString /\ mode <> "chart"%string)
          \/ exists re,
               regexpCompile (if slen (form_name req) =? 0 then "-e2e-"%string
                              else form_name req) = inr re)
      /\ (form_maxAge req = EmptyString
          \/ exists d, ParseDuration (form_maxAge req) = inr d /\ 0 <= d)
      /\ (form_context req = EmptyString
          \/ exists n, Atoi (form_context req) = inr n /\ -1 <= n <= 15).
Proof.
  split.
  - intros [index Hparse].
    destruct (parseRequest_passes _ _ _ _ _ _ _ _ Hparse)
      as (Hform & Hty & Hjob & Hage & Hctx).
    split; [exact Hform |].
    split; [apply parseSearchType_accepts; eexists; exact Hty |].
    split; [apply (parseJob_accepts _ mode); eexists; exact Hjob |].
    split; [apply parseMaxAge_accepts; exact Hage |].
    apply (parseContext_accepts _ mode). eexists. exact Hctx.
  - intros (Hform & Hty & Hjob & Hage & Hctx).
    apply parseSearchType_accepts in Hty. destruct Hty as [ty Hty].
    apply (parseJob_accepts _ mode) in Hjob. destruct Hjob as [job Hjob].
    apply parseMaxAge_accepts in Hage. destruct Hage as [d Hage].
    apply (parseContext_accepts _ mode) in Hctx. destruct Hctx as [c Hctx].
    eexists. exact (parseRequest_built _ _ _ _ _ _ Hform Hty Hjob Hage Hctx).
Qed.


(** X16: [parseRequest] reports the first check that fails: a form
    that does not parse before anything else, then a wrong type whatever
    the other parameters are; and the error about context is returned
    only when the form, the type, the name and maxAge have all passed. *)
Theorem parseRequest_first_error (req : Request) (mode : string) :
  (forall msg, formError req = Some msg -> parseRequest req mode = inl (ErrForm msg))
  /\ (formError req = None ->
      ~ In (form_type req) ["junit"; "build-log"; "all"; ""]%string ->
      parseRequest req mode = inl ErrSearchType)
  /\ (parseRequest req mode = inl ErrContext ->
      formError req = None
      /\ In (form_type req) ["junit"; "build-log"; "all"; ""]%string
      /\ ((form_name req = EmptyString /\ mode <> "chart"%string)
          \/ exists re,
               regexpCompile (if slen (form_name req) =? 0 then "-e2e-"%string
                              else form_name req) = inr re)
      /\ (form_maxAge req = EmptyString
          \/ exists d, ParseDuration (form_maxAge req) = inr d /\ 0 <= d)
      /\ form_context req <> EmptyString).
Proof.
  split; [| split].
  - intros msg Hform. unfold parseRequest. now rewrite Hform.
  - intros Hform Hbad. unfold parseRequest. rewrite Hform.
    destruct (parseSearchType (form_type req)) as [e | ty] eqn:Hty.
    + unfold parseSearchType in Hty.
      destruct (String.eqb (form_type req) "junit"); [discriminate |].
      destruct (String.eqb (form_type req) "build-log"); [discriminate |].
      destruct (String.eqb (form_type req) "all" || String.eqb (form_type req) "");
        [discriminate |].
      now injection Hty as <-.
    + exfalso. apply Hbad. apply parseSearchType_accepts. now exists ty.
  - unfold parseRequest. intros Herr.
    destruct (formError req) as [msg |] eqn:Hform; [discriminate |].
    destruct (parseSearchType (form_type req)) as [e | ty] eqn:Hty.
    { cbn [andThen] in Herr. unfold parseSearchType in Hty.
      destruct (String.eqb (form_type req) "junit"); [discriminate |].
      destruct (String.eqb (form_type req) "build-log"); [discriminate |].
      destruct (String.eqb (form_type req) "all" || String.eqb (form_type req) "");
        [discriminate | congruence]. }
    cbn [andThen] in Herr.
    destruct (parseJob (form_name req) mode) as [e | job] eqn:Hjob.
    { cbn [andThen] in Herr. unfold parseJob in Hjob.
      destruct ((0 <? slen (form_name req)) || String.eqb mode "chart"); [| discriminate].
      destruct (regexpCompile _); [congruence | discriminate]. }
    cbn [andThen] in Herr.
    destruct (parseMaxAge (form_maxAge req)) as [e | d] eqn:Hage.
    { cbn [andThen] in Herr. unfold parseMaxAge in Hage.
      destruct (0 <? slen (form_maxAge req)); [| discriminate].
      destruct (ParseDuration _) as [msg | d']; [congruence |].
      destruct (d' <? 0); [congruence | discriminate]. }
    cbn [andThen] in Herr.
    destruct (parseContext (form_context req) mode) as [e | c] eqn:Hctx; [| discriminate].
    split; [reflexivity |].
    split; [apply parseSearchType_accepts; now exists ty |].
    split; [apply (parseJob_accepts _ mode); now exists job |].
    split; [apply parseMaxAge_accepts; now exists d |].
    intros Hempty. rewrite Hempty in Hctx. unfold parseContext in Hctx. cbn in Hctx.
    destruct (String.eqb mode "text"); discriminate.
Qed.

(** X17: the age limit of an accepted descriptor is never 0 (no
    descriptor is without limit); it is at most the server's limit, 7
    days when the server has none, and at most 24 hours in chart mode;
    it is positive when the server's limit is not negative; and it is
    never more than a positive age that was requested, and is that age
    when the age is within these bounds. *)
Theorem parseRequest_maxAge_bounds (req : Request) (mode : string) (index : Index Regexp) :
  parseRequest req mode = inr index ->
  MaxAge index <> 0
  /\ MaxAge index <= (if serverMaxAge =? 0 then 7 * 24 * Hour else serverMaxAge)
  /\ (mode = "chart"%string -> MaxAge index <= 24 * Hour)
  /\ (0 <= serverMaxAge -> 0 < MaxAge index)
  /\ (forall d, form_maxAge req <> EmptyString ->
                ParseDuration (form_maxAge req) = inr d ->
                0 < d ->
                MaxAge index <= d
                /\ (d <= (if serverMaxAge =? 0 then 7 * 24 * Hour else serverMaxAge) ->
                    (mode = "chart"%string -> d <= 24 * Hour) ->
                    MaxAge index = d)).
Proof.
  intros Hparse.
  destruct (parseRequest_index _ _ _ Hparse) as (d & Hage & Hindex).
  pose proof (parseMaxAge_nonneg _ _ Hage) as Hd.
  assert (Hmax : MaxAge index = clampMaxAge d mode) by (rewrite Hindex; reflexivity).
  assert (Hgiven : forall d', form_maxAge req <> EmptyString ->
                              ParseDuration (form_maxAge req) = inr d' -> d' = d).
  { intros d' Hne Hd'. unfold parseMaxAge in Hage.
    rewrite (slen_pos _ Hne), Hd' in Hage.
    destruct (d' <? 0); [discriminate | congruence]. }
  rewrite Hmax. unfold clampMaxAge, Hour.
  split; [| split; [| split; [| split]]].
  - destruct (serverMaxAge =? 0) eqn:Hs;
      destruct (String.eqb mode "chart"); cbn [andb];
      repeat match goal with
             | |- context [?a <? ?b] => destruct (Z.ltb_spec a b)
             | |- context [?a =? ?b] => destruct (Z.eqb_spec a b)
             end; cbn [orb andb]; try lia; apply Z.eqb_neq in Hs; lia.
  - destruct (serverMaxAge =? 0) eqn:Hs;
      destruct (String.eqb mode "chart"); cbn [andb];
      repeat match goal with
             | |- context [?a <? ?b] => destruct (Z.ltb_spec a b)
             | |- context [?a =? ?b] => destruct (Z.eqb_spec a b)
             end; cbn [orb andb]; lia.
  - intros ->. cbn [String.eqb Ascii.eqb Bool.eqb andb].
    destruct (serverMaxAge =? 0) eqn:Hs;
      repeat match goal with
             | |- context [?a <? ?b] => destruct (Z.ltb_spec a b)
             | |- context [?a =? ?b] => destruct (Z.eqb_spec a b)
             end; cbn [orb andb]; lia.
  - intros Hserver.
    destruct (Z.eqb_spec serverMaxAge 0) as [Hs | Hs];
      destruct (String.eqb mode "chart"); cbn [andb];
      repeat match goal with
             | |- context [?a <? ?b] => destruct (Z.ltb_spec a b)
             | |- context [?a =? ?b] => destruct (Z.eqb_spec a b)
             end; cbn [orb andb]; lia.
  - intros d' Hne Hd' Hpos. rewrite (Hgiven d' Hne Hd') in *.
    destruct (Z.eqb_spec serverMaxAge 0) as [Hs | Hs];
      destruct (String.eqb_spec mode "chart") as [Hchart | Hchart]; cbn [andb];
      repeat match goal with
             | |- context [?a <? ?b] => destruct (Z.ltb_spec a b)
             | |- context [?a =? ?b] => destruct (Z.eqb_spec a b)
             end; cbn [orb andb];
      (split; [lia | intros Hle Hday; try specialize (Hday Hchart); lia]).
Qed.


Lemma parseRequest_text_search (req : Request) (index : Index Regexp) :
  parseRequest req "text" = inr index -> Search index = form_search req.
Proof.
  intros Hparse. destruct (parseRequest_index _ _ _ Hparse) as (d & _ & Hindex).
  rewrite Hindex. cbn [Search]. change (String.eqb "text" "chart") with false.
  now rewrite andb_false_r.
Qed.

(** X18: in chart mode an accepted descriptor always has patterns to
    search for (the built-in ones when the request has none) and always
    has a job filter, and its context is 0 when none is given; in the
    other modes the patterns are the ones of the request, and there is
    a job filter exactly when a name is given. *)
Theorem parseRequest_mode_defaults (req : Request) (mode : string) (index : Index Regexp) :
  parseRequest req mode = inr index ->
  (mode = "chart"%string ->
   Search index <> []
   /\ (form_search req = [] -> Search index = chartSearch)
   /\ (form_search req <> [] -> Search index = form_search req)
   /\ Job index <> None
   /\ (form_context req = EmptyString -> Context index = 0))
  /\ (mode <> "chart"%string ->
      Search index = form_search req
      /\ (Job index = None <-> form_name req = EmptyString)).
Proof.
  intros Hparse.
  destruct (parseRequest_passes _ _ _ _ _ _ _ _ Hparse) as (_ & _ & Hjob & _ & Hctx).
  destruct (parseRequest_index _ _ _ Hparse) as (d & _ & Hindex).
  assert (Hsearch : Search index
                    = if (len (form_search req) =? 0) && String.eqb mode "chart"
                      then form_search req ++ chartSearch else form_search req)
    by (rewrite Hindex; reflexivity).
  split.
  - intros ->. rewrite Hsearch. change (String.eqb "chart" "chart") with true.
    rewrite andb_true_r.
    split; [| split; [| split; [| split]]].
    + destruct (form_search req) as [| p ps]; cbn; discriminate.
    + intros ->. reflexivity.
    + intros Hne. destruct (form_search req) as [| p ps]; [contradiction | reflexivity].
    + unfold parseJob in Hjob. change (String.eqb "chart" "chart") with true in Hjob.
      rewrite orb_true_r in Hjob.
      destruct (regexpCompile _); [discriminate |]. injection Hjob as <-. discriminate.
    + intros Hempty. rewrite Hempty in Hctx. cbn in Hctx. congruence.
  - intros Hmode. apply String.eqb_neq in Hmode.
    rewrite Hsearch, Hmode, andb_false_r. split; [reflexivity |].
    unfold parseJob in Hjob. rewrite Hmode, orb_false_r in Hjob.
    destruct (0 <? slen (form_name req)) eqn:Hgiven.
    + destruct (regexpCompile _); [discriminate |]. injection Hjob as <-.
      apply slen_pos_iff in Hgiven. split; [discriminate | contradiction].
    + injection Hjob as <-. apply slen_empty in Hgiven. split; [intros _; exact Hgiven | reflexivity].
Qed.

(** *** [handleIndex] *)

Variable HumanDuration : Z -> string.
Variable MetadataFor : string -> Result * bool.
Variable generator : Index Regexp -> list MatchEvent * option string.

Local Abbreviation handleIndex :=
  (handleIndex Regexp regexpCompile ParseDuration Atoi serverMaxAge
               HumanDuration MetadataFor generator).

(** X19: [handleIndex] answers a request that [parseRequest] rejects
    with that error, and a request without a pattern, or with an empty
    first pattern, with the landing page: in both cases no search is
    made and no renderer runs. *)
Theorem handleIndex_without_search (req : Request) (start : Z) :
  (forall e, parseRequest req "text" = inl e -> handleIndex req start = BadInput e)
  /\ (forall index, parseRequest req "text" = inr index ->
                    hd EmptyString (form_search req) = EmptyString ->
                    handleIndex req start = EmptyPage).
Proof.
  split.
  - intros e Hparse. unfold handleIndex. now rewrite Hparse.
  - intros index Hparse Hempty. unfold handleIndex. rewrite Hparse.
    pose proof (parseRequest_text_search _ _ Hparse) as Hsearch.
    destruct (form_search req) as [| p ps]; [rewrite Hsearch; reflexivity |].
    cbn [hd] in Hempty. subst p. rewrite Hsearch.
    change (len (EmptyString :: ps) =? 0) with false. cbn iota.
    rewrite Hsearch. reflexivity.
Qed.

(** X20: a request with a pattern and no context parameter is shown
    in the context view with two lines of context. *)
Theorem handleIndex_default_view (req : Request) (start : Z) (index : Index Regexp) :
  parseRequest req "text" = inr index ->
  form_context req = EmptyString ->
  hd EmptyString (form_search req) <> EmptyString ->
  Context index = 2
  /\ handleIndex req start
     = SearchPage ContextRenderer
         (renderWithContext HumanDuration MetadataFor start
            (fst (generator index)) (snd (generator index))).
Proof.
  intros Hparse Hctx Hsearch.
  destruct (parseRequest_passes _ _ _ _ _ _ _ _ Hparse) as (_ & _ & _ & _ & Hc).
  rewrite Hctx in Hc. cbn in Hc. injection Hc as Hc.
  pose proof (parseRequest_text_search _ _ Hparse) as Hs.
  split; [now symmetry |].
  unfold handleIndex. rewrite Hparse.
  destruct (form_search req) as [| p ps] eqn:Hform; [contradiction |].
  cbn [hd] in Hsearch.
  assert (Hne : (slen p =? 0) = false).
  { destruct (slen p =? 0) eqn:Hz; [| reflexivity].
    apply slen_zero_iff in Hz. contradiction. }
  rewrite Hs. change (len (p :: ps) =? 0) with false. cbn iota.
  rewrite Hs. cbn [hd]. rewrite Hne.
  destruct (generator index) as [events err]. cbn [fst snd].
  rewrite <- Hc. reflexivity.
Qed.

End NormalizationMore.

(** ** The selects of the search form *)

Lemma clampMaxAge_nonzero (serverMaxAge d : Z) (mode : string) :
  clampMaxAge serverMaxAge d mode <> 0.
Proof.
  unfold clampMaxAge, Hour.
  destruct (Z.eqb_spec serverMaxAge 0) as [Hs | Hs];
    destruct (String.eqb mode "chart"); cbn [andb];
    repeat match goal with
           | |- context [?a <? ?b] => destruct (Z.ltb_spec a b)
           | |- context [?a =? ?b] => destruct (Z.eqb_spec a b)
           end; cbn [orb andb]; lia.
Qed.

Ltac eqb_false :=
  repeat match goal with
         | |- context [?a =? ?b] =>
             let H := fresh in
             destruct (Z.eqb_spec a b) as [H | H];
             [exfalso; unfold Hour in *; lia |]
         end.

Section FormFacts.

Variable Itoa : Z -> string.
Variable DurationString : Z -> string.
Variable HTMLEscapeString : string -> string.

Local Abbreviation contextOptions := (contextOptions Itoa HTMLEscapeString).
Local Abbreviation searchTypeOptions := (searchTypeOptions HTMLEscapeString).
Local Abbreviation maxAgeOptions := (maxAgeOptions DurationString HTMLEscapeString).

(** X21: in the select of the search type exactly one option is
    marked as selected when the type is junit, build-log or all, as it is
    in every accepted descriptor, and that option is the one of the
    type; for any other type none is marked. *)
Theorem searchTypeOptions_selected (ty : string) :
  (In ty ["junit"; "build-log"; "all"]%string ->
   filter isSelected (searchTypeOptions ty)
   = [mkOption (HTMLEscapeString ty) "selected" (HTMLEscapeString ty)])
  /\ (~ In ty ["junit"; "build-log"; "all"]%string ->
      filter isSelected (searchTypeOptions ty) = []).
Proof.
  split.
  - intros [<- | [<- | [<- | []]]]; reflexivity.
  - intros Hout. cbn [In] in Hout.
    unfold searchTypeOptions. cbn [map filter].
    destruct (String.eqb_spec "junit" ty) as [H | _]; [tauto |].
    destruct (String.eqb_spec "build-log" ty) as [H | _]; [tauto |].
    destruct (String.eqb_spec "all" ty) as [H | _]; [tauto |].
    reflexivity.
Qed.

(** X22: in the select of the age exactly one option is marked as
    selected whatever the age is, and the option for no limit is
    offered exactly for the age 0, which no accepted descriptor has. *)
Theorem maxAgeOptions_selected :
  (forall d : Z, List.length (filter isSelected (maxAgeOptions d)) = 1%nat)
  /\ (forall d : Z, In noLimitOption (maxAgeOptions d) <-> d = 0)
  /\ (forall (Regexp : Type) (regexpCompile : string -> string + Regexp)
             (ParseDuration Atoi : string -> string + Z) (serverMaxAge : Z)
             (req : Request) (mode : string) (index : Index Regexp),
         parseRequest Regexp regexpCompile ParseDuration Atoi serverMaxAge req mode
         = inr index ->
         ~ In noLimitOption (maxAgeOptions (MaxAge index))).
Proof.
  assert (Hcases : forall d : Z,
             d = 6 * Hour \/ d = 12 * Hour \/ d = 24 * Hour \/ d = 48 * Hour
             \/ d = 168 * Hour \/ d = 336 * Hour \/ d = 0
             \/ (d <> 6 * Hour /\ d <> 12 * Hour /\ d <> 24 * Hour /\ d <> 48 * Hour
                 /\ d <> 168 * Hour /\ d <> 336 * Hour /\ d <> 0))
    by (intros d; unfold Hour; lia).
  assert (Hlimit : forall d : Z, In noLimitOption (maxAgeOptions d) <-> d = 0).
  { intros d.
    destruct (Hcases d) as [-> | [-> | [-> | [-> | [-> | [-> | [-> | Hother]]]]]]];
      try (split; [| discriminate];
           cbn; unfold noLimitOption; intuition discriminate).
    - split; [reflexivity | intros _; cbn; auto 10].
    - destruct Hother as (H1 & H2 & H3 & H4 & H5 & H6 & H0).
      split; [| contradiction].
      unfold maxAgeOptions, isStandardMaxAge, durationSelected, noLimitOption.
      eqb_false. cbn [orb app In].
      intros [Hin | [Hin | [Hin | [Hin | [Hin | [Hin | [Hin | []]]]]]]]; try discriminate.
      injection Hin as Hv Hl. rewrite Hv in Hl. discriminate. }
  split; [| split; [exact Hlimit |]].
  - intros d.
    destruct (Hcases d) as [-> | [-> | [-> | [-> | [-> | [-> | [-> | Hother]]]]]]];
      try reflexivity.
    destruct Hother as (H1 & H2 & H3 & H4 & H5 & H6 & H0).
    unfold maxAgeOptions, isStandardMaxAge, durationSelected.
    eqb_false. reflexivity.
  - intros Regexp regexpCompile ParseDuration Atoi serverMaxAge req mode index Hparse Hin.
    apply Hlimit in Hin.
    destruct (parseRequest_index _ _ _ _ _ _ _ _ Hparse) as (d & _ & Hindex).
    rewrite Hindex in Hin. cbn [MaxAge] in Hin.
    exact (clampMaxAge_nonzero _ _ _ Hin).
Qed.

(** X23: in the select of the context the option Links, whose value
    is -1, is marked by the test for 1: for the context -1 no option is
    marked as selected, for the context 1 the options -1 and 1 both
    are, and for every other context exactly one option is. *)
Theorem contextOptions_selected (c : Z) :
  (c = -1 -> filter isSelected (contextOptions c) = [])
  /\ (c = 1 -> map o_value (filter isSelected (contextOptions c)) = ["-1"; "1"]%string)
  /\ (c <> -1 -> c <> 1 -> List.length (filter isSelected (contextOptions c)) = 1%nat).
Proof.
  assert (Hcases : c = -1 \/ c = 0 \/ c = 1 \/ c = 2 \/ c = 3 \/ c = 5 \/ c = 7
                   \/ c = 10 \/ c = 15
                   \/ (c <> -1 /\ c <> 0 /\ c <> 1 /\ c <> 2 /\ c <> 3 /\ c <> 5
                       /\ c <> 7 /\ c <> 10 /\ c <> 15)) by lia.
  destruct Hcases as [-> | [-> | [-> | [-> | [-> | [-> | [-> | [-> | [-> | Hother]]]]]]]]];
    try (split; [| split]; intros; try lia; reflexivity).
  destruct Hother as (H1 & H2 & H3 & H4 & H5 & H6 & H7 & H8 & H9).
  split; [intros; lia |]. split; [intros; lia |]. intros _ _.
  unfold contextOptions, isStandardContext, intSelected.
  eqb_false. reflexivity.
Qed.

End FormFacts.

(** ** [handleConfig] *)

(** X24: [handleConfig] never answers 204: whatever path is
    configured, it overwrites it with README.md and answers with the
    text of that file, or with the error of reading it. *)
Theorem handleConfig_fixed_path (ReadFile : string -> string + string) (configPath : string) :
  fst (handleConfig ReadFile configPath) = "README.md"%string
  /\ snd (handleConfig ReadFile configPath) <> NoContent
  /\ snd (handleConfig ReadFile configPath)
     = match ReadFile "README.md"%string with
       | inl err => ConfigError err
       | inr data => ConfigText data
       end.
Proof.
  unfold handleConfig. change (String.eqb "README.md" "") with false. cbn iota.
  destruct (ReadFile "README.md"%string); cbn [fst snd]; repeat split; discriminate.
Qed.

(** ** The further theorems at sample inputs *)

Local Open Scope string_scope.

Lemma sampleStream_rendered :
  renderWithContext sampleDuration resolveAll 0 sampleStream None = Done sampleContextOutput.
Proof. vm_compute. reflexivity. Qed.

Lemma sampleStream_short : len sampleStream <= int_max.
Proof. vm_compute. discriminate. Qed.

(** X2 at the sample stream. *)
Lemma context_count_and_headers_witness :
  renderWithContext sampleDuration resolveAll 0 sampleStream None = Done sampleContextOutput
  /\ len sampleStream <= int_max
  /\ r_count sampleContextOutput = len (openers "" sampleStream)
  /\ filter isHeader (r_out sampleContextOutput)
     = map (headerOf sampleDuration resolveAll 0) (openers "" sampleStream).
Proof.
  split; [exact sampleStream_rendered |]. split; [exact sampleStream_short |].
  exact (context_count_and_headers sampleDuration resolveAll 0 sampleStream None
           sampleContextOutput sampleStream_rendered sampleStream_short).
Defined.

(** X3 at the sample stream. *)
Lemma context_blocks_balanced_witness :
  renderWithContext sampleDuration resolveAll 0 sampleStream None = Done sampleContextOutput
  /\ len sampleStream <= int_max
  /\ Z.of_nat (countTok isBlockOpen (r_out sampleContextOutput)) = r_count sampleContextOutput
  /\ countTok isBlockClose (r_out sampleContextOutput)
     = countTok isBlockOpen (r_out sampleContextOutput).
Proof.
  split; [exact sampleStream_rendered |]. split; [exact sampleStream_short |].
  exact (context_blocks_balanced sampleDuration resolveAll 0 sampleStream None
           sampleContextOutput sampleStream_rendered sampleStream_short).
Defined.

(** X4 at the sample stream. *)
Lemma context_separators_witness :
  renderWithContext sampleDuration resolveAll 0 sampleStream None = Done sampleContextOutput
  /\ (countTok isSeparator (r_out sampleContextOutput)
      + List.length (openers "" sampleStream))%nat
     = List.length sampleStream.
Proof.
  split; [exact sampleStream_rendered |].
  exact (context_separators sampleDuration resolveAll 0 sampleStream None
           sampleContextOutput sampleStream_rendered).
Defined.

(** X5 at the sample stream. *)
Lemma context_lines_in_order_witness :
  renderWithContext sampleDuration resolveAll 0 sampleStream None = Done sampleContextOutput
  /\ linesOf (r_out sampleContextOutput)
     = flat_map (fun e => hitLines (matches e)) sampleStream
  /\ noticesOf (r_out sampleContextOutput) = elided sampleStream.
Proof.
  split; [exact sampleStream_rendered |].
  exact (context_lines_in_order sampleDuration resolveAll 0 sampleStream None
           sampleContextOutput sampleStream_rendered).
Defined.

(** X6 at the sample stream, cut after its first two events. *)
Lemma context_output_extends_witness :
  renderWithContext sampleDuration resolveAll 0
    (firstn 2 sampleStream ++ skipn 2 sampleStream)%list None = Done sampleContextOutput
  /\ exists st1 rest,
       executeGrep (ctxCallback sampleDuration resolveAll 0) (firstn 2 sampleStream) ctxInit
       = Done st1
       /\ r_out sampleContextOutput = (bw st1 ++ rest)%list.
Proof.
  split; [exact sampleStream_rendered |].
  exact (context_output_extends sampleDuration resolveAll 0
           (firstn 2 sampleStream) (skipn 2 sampleStream) None
           sampleContextOutput sampleStream_rendered).
Defined.

(** X7 at the sample stream. *)
Lemma summary_count_and_rows_witness :
  len sampleStream <= int_max
  /\ r_count (renderSummary sampleDuration resolveButX 0 sampleStream None)
     = len (filter (hasJobURIb resolveButX) (openers "" sampleStream))
  /\ filter isRow (r_out (renderSummary sampleDuration resolveButX 0 sampleStream None))
     = map (rowOf sampleDuration resolveButX 0)
           (filter (hasJobURIb resolveButX) (openers "" sampleStream)).
Proof.
  split; [exact sampleStream_short |].
  exact (summary_count_and_rows sampleDuration resolveButX 0 sampleStream None
           sampleStream_short).
Defined.

(** X8 at a stream with a block of two events of a source without
    job URL: one entry. *)
Lemma summary_logs_skipped_blocks_witness :
  hd_error (map name sampleSkipStream) <> Some ""
  /\ blocks sampleSkipStream = [("A", 1); ("X", 2); ("B", 1)]%nat
  /\ filter (fun n => negb (hasJobURIb resolveButX n)) (map fst (blocks sampleSkipStream))
     = ["X"]
  /\ s_log (sumRun sampleDuration resolveButX 0 sampleSkipStream sumInit)
     = filter (fun n => negb (hasJobURIb resolveButX n)) (map fst (blocks sampleSkipStream)).
Proof.
  assert (Hfirst : hd_error (map name sampleSkipStream) <> Some "") by (cbn; discriminate).
  split; [exact Hfirst |]. split; [reflexivity |]. split; [reflexivity |].
  exact (proj2 (summary_logs_skipped_blocks sampleDuration resolveButX 0 sampleSkipStream)
           Hfirst).
Defined.

(** X9 at the same stream: four events, one of them the first of a
    block without job URL, and counts that add up to three. *)
Lemma summary_hits_conserved_witness :
  len sampleSkipStream <= int_max
  /\ 0 < r_count (renderSummary sampleDuration resolveButX 0 sampleSkipStream None)
  /\ hd_error (map name sampleSkipStream) <> Some ""
  /\ len sampleSkipStream
     - len (filter (fun n => negb (hasJobURIb resolveButX n))
                   (map fst (blocks sampleSkipStream))) = 3
  /\ sumZ (countsOf (r_out (renderSummary sampleDuration resolveButX 0 sampleSkipStream None)))
     = len sampleSkipStream
       - len (filter (fun n => negb (hasJobURIb resolveButX n))
                     (map fst (blocks sampleSkipStream))).
Proof.
  assert (Hmax : len sampleSkipStream <= int_max) by (vm_compute; discriminate).
  assert (Hpos : 0 < r_count (renderSummary sampleDuration resolveButX 0 sampleSkipStream None))
    by (vm_compute; reflexivity).
  assert (Hfirst : hd_error (map name sampleSkipStream) <> Some "") by (cbn; discriminate).
  split; [exact Hmax |]. split; [exact Hpos |]. split; [exact Hfirst |].
  split; [reflexivity |].
  exact (proj1 (proj2 (summary_hits_conserved sampleDuration resolveButX 0 sampleSkipStream
                         None Hmax)) Hpos Hfirst).
Defined.

(** X10 at the sample stream. *)
Lemma summary_rows_balanced_witness :
  len sampleStream <= int_max
  /\ hd_error (r_out (renderSummary sampleDuration resolveAll 0 sampleStream None))
     = Some TTableHead
  /\ Z.of_nat (countTok isRowOpen
                 (r_out (renderSummary sampleDuration resolveAll 0 sampleStream None)))
     = r_count (renderSummary sampleDuration resolveAll 0 sampleStream None).
Proof.
  split; [exact sampleStream_short |].
  destruct (summary_rows_balanced sampleDuration resolveAll 0 sampleStream None
              sampleStream_short) as (Hhead & Hopen & _).
  split; [exact Hhead | exact Hopen].
Defined.

(** X12 at the sample stream. *)
Lemma flushes_bounded_witness :
  renderWithContext sampleDuration resolveAll 0 sampleStream None = Done sampleContextOutput
  /\ (1 <= countTok isFlush (r_out sampleContextOutput) <= List.length sampleStream + 1)%nat
  /\ last (r_out sampleContextOutput) TTableHead = TFlush.
Proof.
  split; [exact sampleStream_rendered |].
  exact (proj1 (flushes_bounded sampleDuration resolveAll 0 sampleStream None)
           sampleContextOutput sampleStream_rendered).
Defined.

(** X14 at a hit of three lines. *)
Lemma hitLines_kept_lines_witness :
  In "y" (hitLines ["y  "; ""; " "])
  /\ "y" <> EmptyString
  /\ endsWithSpace "y" = false
  /\ exists m k, In m ["y  "; ""; " "] /\ m = "y" ++ spaces k.
Proof.
  assert (Hin : In "y" (hitLines ["y  "; ""; " "])) by (vm_compute; auto).
  split; [exact Hin |].
  exact (proj2 (hitLines_kept_lines ["y  "; ""; " "]) "y" Hin).
Defined.

(** X16 at a request with a wrong type and a wrong context. *)
Lemma parseRequest_first_error_witness :
  formError (sampleRequest "xml" "" "99") = None
  /\ ~ In (form_type (sampleRequest "xml" "" "99")) ["junit"; "build-log"; "all"; ""]
  /\ parseRequest string sampleCompile sampleParseDuration sampleAtoi 0
       (sampleRequest "xml" "" "99") "text" = inl ErrSearchType.
Proof.
  assert (Hform : formError (sampleRequest "xml" "" "99") = None) by reflexivity.
  assert (Hbad : ~ In (form_type (sampleRequest "xml" "" "99"))
                     ["junit"; "build-log"; "all"; ""])
    by (cbn; intuition discriminate).
  split; [exact Hform |]. split; [exact Hbad |].
  exact (proj1 (proj2 (parseRequest_first_error string sampleCompile sampleParseDuration
                         sampleAtoi 0 (sampleRequest "xml" "" "99") "text")) Hform Hbad).
Defined.

(** X17 at a request for 6 hours. *)
Lemma parseRequest_maxAge_bounds_witness :
  parseRequest string sampleCompile sampleParseDuration sampleAtoi 0
    (sampleRequest "junit" "6h" "") "text"
  = inr (mkIndex ["timeout"] "junit" None (6 * Hour) 2)
  /\ MaxAge (mkIndex (Regexp := string) ["timeout"] "junit" None (6 * Hour) 2) <> 0
  /\ MaxAge (mkIndex (Regexp := string) ["timeout"] "junit" None (6 * Hour) 2)
     <= 7 * 24 * Hour.
Proof.
  assert (Hparse : parseRequest string sampleCompile sampleParseDuration sampleAtoi 0
                     (sampleRequest "junit" "6h" "") "text"
                   = inr (mkIndex ["timeout"] "junit" None (6 * Hour) 2)) by reflexivity.
  split; [exact Hparse |].
  destruct (parseRequest_maxAge_bounds string sampleCompile sampleParseDuration sampleAtoi 0
              (sampleRequest "junit" "6h" "") "text" _ Hparse) as (Hnz & Hle & _).
  split; [exact Hnz | exact Hle].
Defined.

(** X18 at a chart request without patterns. *)
Lemma parseRequest_mode_defaults_witness :
  parseRequest string sampleCompile sampleParseDuration sampleAtoi 0
    (mkRequest None [] "" "" "" "") "chart"
  = inr (mkIndex chartSearch "all" (Some "-e2e-") (24 * Hour) 0)
  /\ Search (mkIndex (Regexp := string) chartSearch "all" (Some "-e2e-") (24 * Hour) 0) <> []
  /\ Job (mkIndex (Regexp := string) chartSearch "all" (Some "-e2e-") (24 * Hour) 0) <> None.
Proof.
  assert (Hparse : parseRequest string sampleCompile sampleParseDuration sampleAtoi 0
                     (mkRequest None [] "" "" "" "") "chart"
                   = inr (mkIndex chartSearch "all" (Some "-e2e-") (24 * Hour) 0))
    by reflexivity.
  split; [exact Hparse |].
  destruct (proj1 (parseRequest_mode_defaults string sampleCompile sampleParseDuration
                     sampleAtoi 0 (mkRequest None [] "" "" "" "") "chart" _ Hparse) eq_refl)
    as (Hsearch & _ & _ & Hjob & _).
  split; [exact Hsearch | exact Hjob].
Defined.

(** X19 at a request without a pattern. *)
Lemma handleIndex_without_search_witness :
  parseRequest string sampleCompile sampleParseDuration sampleAtoi 0
    (mkRequest None [] "" "" "" "") "text"
  = inr (mkIndex [] "all" None (7 * 24 * Hour) 2)
  /\ hd EmptyString (form_search (mkRequest None [] "" "" "" "")) = EmptyString
  /\ handleIndex string sampleCompile sampleParseDuration sampleAtoi 0
       sampleDuration resolveAll (sampleGenerator sampleStream)
       (mkRequest None [] "" "" "" "") 0 = EmptyPage.
Proof.
  assert (Hparse : parseRequest string sampleCompile sampleParseDuration sampleAtoi 0
                     (mkRequest None [] "" "" "" "") "text"
                   = inr (mkIndex [] "all" None (7 * 24 * Hour) 2)) by reflexivity.
  split; [exact Hparse |]. split; [reflexivity |].
  exact (proj2 (handleIndex_without_search string sampleCompile sampleParseDuration
                  sampleAtoi 0 sampleDuration resolveAll (sampleGenerator sampleStream)
                  (mkRequest None [] "" "" "" "") 0) _ Hparse eq_refl).
Defined.

(** X20 at a request with a pattern and no context. *)
Lemma handleIndex_default_view_witness :
  parseRequest string sampleCompile sampleParseDuration sampleAtoi 0
    (sampleRequest "junit" "6h" "") "text"
  = inr (mkIndex ["timeout"] "junit" None (6 * Hour) 2)
  /\ form_context (sampleRequest "junit" "6h" "") = EmptyString
  /\ hd EmptyString (form_search (sampleRequest "junit" "6h" "")) <> EmptyString
  /\ handleIndex string sampleCompile sampleParseDuration sampleAtoi 0
       sampleDuration resolveAll (sampleGenerator sampleStream)
       (sampleRequest "junit" "6h" "") 0
     = SearchPage ContextRenderer
         (renderWithContext sampleDuration resolveAll 0 sampleStream None).
Proof.
  assert (Hparse : parseRequest string sampleCompile sampleParseDuration sampleAtoi 0
                     (sampleRequest "junit" "6h" "") "text"
                   = inr (mkIndex ["timeout"] "junit" None (6 * Hour) 2)) by reflexivity.
  assert (Hsearch : hd EmptyString (form_search (sampleRequest "junit" "6h" "")) <> EmptyString)
    by (cbn; discriminate).
  split; [exact Hparse |]. split; [reflexivity |]. split; [exact Hsearch |].
  exact (proj2 (handleIndex_default_view string sampleCompile sampleParseDuration
                  sampleAtoi 0 sampleDuration resolveAll (sampleGenerator sampleStream)
                  (sampleRequest "junit" "6h" "") 0 _ Hparse eq_refl Hsearch)).
Defined.

(** X21 at the type build-log. *)
Lemma searchTypeOptions_selected_witness :
  In "build-log" ["junit"; "build-log"; "all"]
  /\ filter isSelected (searchTypeOptions sampleEscape "build-log")
     = [mkOption "build-log" "selected" "build-log"].
Proof.
  assert (Hin : In "build-log" ["junit"; "build-log"; "all"]) by (cbn; auto).
  split; [exact Hin |].
  exact (proj1 (searchTypeOptions_selected sampleEscape "build-log") Hin).
Defined.

(** X22 at a request for 6 hours. *)
Lemma maxAgeOptions_selected_witness :
  parseRequest string sampleCompile sampleParseDuration sampleAtoi 0
    (sampleRequest "junit" "6h" "") "text"
  = inr (mkIndex ["timeout"] "junit" None (6 * Hour) 2)
  /\ ~ In noLimitOption (maxAgeOptions sampleText sampleEscape (6 * Hour)).
Proof.
  assert (Hparse : parseRequest string sampleCompile sampleParseDuration sampleAtoi 0
                     (sampleRequest "junit" "6h" "") "text"
                   = inr (mkIndex ["timeout"] "junit" None (6 * Hour) 2)) by reflexivity.
  split; [exact Hparse |].
  exact (proj2 (proj2 (maxAgeOptions_selected sampleText sampleEscape))
           string sampleCompile sampleParseDuration sampleAtoi 0
           (sampleRequest "junit" "6h" "") "text" _ Hparse).
Defined.

(** X23 at the contexts -1, 1 and 4. *)
Lemma contextOptions_selected_witness :
  filter isSelected (contextOptions sampleText sampleEscape (-1)) = []
  /\ map o_value (filter isSelected (contextOptions sampleText sampleEscape 1)) = ["-1"; "1"]
  /\ List.length (filter isSelected (contextOptions sampleText sampleEscape 4)) = 1%nat.
Proof.
  split; [exact (proj1 (contextOptions_selected sampleText sampleEscape (-1)) eq_refl) |].
  split; [exact (proj1 (proj2 (contextOptions_selected sampleText sampleEscape 1)) eq_refl) |].
  refine (proj2 (proj2 (contextOptions_selected sampleText sampleEscape 4)) _ _); discriminate.
Defined.

(** C8 at requests with a wrong type, a maxAge that does not parse, a
    negative maxAge and a context of 16, and at a request with neither
    type nor context, which is accepted with the type all and the
    context 2. *)
Lemma parseRequest_rejects_malformed_witness :
  (exists e, parseRequest string sampleCompile sampleParseDuration sampleAtoi 0
               (sampleRequest "xml" "" "") "text" = inl e)
  /\ (exists e, parseRequest string sampleCompile sampleParseDuration sampleAtoi 0
                  (sampleRequest "junit" "soon" "") "text" = inl e)
  /\ (exists e, parseRequest string sampleCompile sampleParseDuration sampleAtoi 0
                  (sampleRequest "junit" "-1h" "") "text" = inl e)
  /\ (exists e, parseRequest string sampleCompile sampleParseDuration sampleAtoi 0
                  (sampleRequest "junit" "" "16") "text" = inl e)
  /\ formError (sampleRequest "" "" "") = None
  /\ form_context (sampleRequest "" "" "") = EmptyString
  /\ (exists index,
        parseRequest string sampleCompile sampleParseDuration sampleAtoi 0
          (sampleRequest "" "" "") "text" = inr index
        /\ SearchType index = "all"
        /\ Context index = 2).
Proof.
  split.
  { apply (proj1 (parseRequest_rejects_malformed string sampleCompile sampleParseDuration
                    sampleAtoi 0 (sampleRequest "xml" "" "") "text"));
      cbn; discriminate. }
  split.
  { apply (proj1 (proj2 (parseRequest_rejects_malformed string sampleCompile
                           sampleParseDuration sampleAtoi 0
                           (sampleRequest "junit" "soon" "") "text"))
             "invalid duration"); [cbn; discriminate | reflexivity]. }
  split.
  { apply (proj1 (proj2 (proj2 (parseRequest_rejects_malformed string sampleCompile
                                  sampleParseDuration sampleAtoi 0
                                  (sampleRequest "junit" "-1h" "") "text")))
             (- Hour)); [cbn; discriminate | reflexivity | reflexivity]. }
  split.
  { apply (proj1 (proj2 (proj2 (proj2 (parseRequest_rejects_malformed string sampleCompile
                                         sampleParseDuration sampleAtoi 0
                                         (sampleRequest "junit" "" "16") "text")))));
      [cbn; discriminate |].
    intros n Hn. vm_compute in Hn. injection Hn as <-. right. reflexivity. }
  split; [reflexivity |]. split; [reflexivity |].
  destruct (proj2 (proj2 (proj2 (proj2 (proj2
              (parseRequest_rejects_malformed string sampleCompile sampleParseDuration
                 sampleAtoi 0 (sampleRequest "" "" "") "text"))))))
    as (index & Hparse & Hty & Hctx & _).
  - reflexivity.
  - cbn. auto 6.
  - left. split; [reflexivity | discriminate].
  - left. reflexivity.
  - left. reflexivity.
  - exists index. split; [exact Hparse |]. split; [exact Hty | exact (Hctx eq_refl)].
Defined.
